(** * Email_Agent: a shallow embedding of [app.py]

    The program fetches two cryptocurrency prices over HTTP (with a bounded
    retry loop), renders them into an HTML digest, keeps a list of
    subscribers in [subscribers.json] and posts the digest to every
    subscriber through a transactional e-mail API.

    Python values are embedded as the inductive type [pyval]; the effects
    of the program (HTTP calls, sleeping, Streamlit banners, printing, the
    subscriber file, the wall clock, exceptions) are embedded in a state
    and exception monad [M] over an explicit [world].

    Part I embeds the functions of [app.py], Part II defines what the
    statements observe of a run, Part III states and proves the
    properties. *)

From Stdlib Require Import ZArith List String Ascii Bool Lia.
From Stdlib Require Import SpecFloat DecimalString.
Import ListNotations.

Local Open Scope string_scope.
Local Open Scope list_scope.
Local Open Scope Z_scope.

(* ================================================================== *)
(** * Part I: the program *)

(* ------------------------------------------------------------------ *)
(** ** Python values *)

#[local] Set Warnings "-register-all".

(** The values that [json.load] and [response.json()] produce, which are
    the only values the program handles.  A Python [float] is an IEEE
    binary64 number, kept as a [spec_float]; a [dict] keeps its items in
    insertion order. *)
Inductive pyval : Type :=
| PyNone
| PyBool (b : bool)
| PyInt (z : Z)
| PyFloat (f : spec_float)
| PyStr (s : string)
| PyList (l : list pyval)
| PyDict (items : list (string * pyval)).

(** The exceptions the embedded code can raise. *)
Inductive exn : Type :=
| KeyError
| TypeError
| ValueError
| AttributeError
| OverflowError
| JSONDecodeError
| ConnectionError
| FileNotFoundError
| UnicodeDecodeError
| RecursionError.

Inductive result (A : Type) : Type :=
| Ret (a : A)
| Raise (e : exn).
Arguments Ret {A} a.
Arguments Raise {A} e.

(** [bool(v)], as used by [if not v]. *)
Definition truthy (v : pyval) : bool :=
  match v with
  | PyNone => false
  | PyBool b => b
  | PyInt z => negb (z =? 0)
  | PyFloat f =>
      match f with
      | S754_zero _ => false
      | _ => true
      end
  | PyStr s => negb (String.eqb s EmptyString)
  | PyList l => match l with [] => false | _ => true end
  | PyDict d => match d with [] => false | _ => true end
  end.

(** [needle in hay] on strings: [needle] occurs as a substring. *)
Fixpoint contains (needle hay : string) : bool :=
  String.prefix needle hay ||
  match hay with
  | EmptyString => false
  | String _ rest => contains needle rest
  end.

(** [x == v] where [x] is a [str]: only an equal [str] compares equal. *)
Definition str_eq (x : string) (v : pyval) : bool :=
  match v with
  | PyStr s => String.eqb x s
  | _ => false
  end.

(** [x in v] where [x] is a [str]. *)
Definition py_in (x : string) (v : pyval) : result bool :=
  match v with
  | PyList l => Ret (existsb (str_eq x) l)
  | PyStr s => Ret (contains x s)
  | PyDict d => Ret (existsb (fun kv => String.eqb x (fst kv)) d)
  | _ => Raise TypeError
  end.

(** [v.append(x)]: only a list has the method. *)
Definition py_append (v x : pyval) : result pyval :=
  match v with
  | PyList l => Ret (PyList (l ++ [x]))
  | _ => Raise AttributeError
  end.

Fixpoint chars (s : string) : list pyval :=
  match s with
  | EmptyString => []
  | String c rest => PyStr (String c EmptyString) :: chars rest
  end.

(** The items [for x in v] goes through. *)
Definition py_iter (v : pyval) : result (list pyval) :=
  match v with
  | PyList l => Ret l
  | PyStr s => Ret (chars s)
  | PyDict d => Ret (map (fun kv => PyStr (fst kv)) d)
  | _ => Raise TypeError
  end.

Fixpoint lookup (k : string) (d : list (string * pyval)) : option pyval :=
  match d with
  | [] => None
  | (k', v) :: rest => if String.eqb k k' then Some v else lookup k rest
  end.

(** [v[k]] where [k] is a [str]. *)
Definition subscript (v : pyval) (k : string) : result pyval :=
  match v with
  | PyDict d =>
      match lookup k d with
      | Some x => Ret x
      | None => Raise KeyError
      end
  | _ => Raise TypeError
  end.

(* ------------------------------------------------------------------ *)
(** ** The world *)

(** The contents of a file or of a response body, by what the JSON
    decoder makes of them: [Json v] is decoded to the value [v] (this is
    what [json.dump] writes); on [NotJson raw] the decoder raises
    [JSONDecodeError]; on [Unreadable raw e] reading and decoding fails
    with another exception [e], such as [UnicodeDecodeError] for bytes
    that are no text, [RecursionError] for brackets nested too deeply or
    [ValueError] for an integer of too many digits. *)
Inductive document : Type :=
| Json (v : pyval)
| NotJson (raw : string)
| Unreadable (raw : string) (e : exn).

(** [json.load] on the contents [d]. *)
Definition json_load (d : document) : result pyval :=
  match d with
  | Json v => Ret v
  | NotJson _ => Raise JSONDecodeError
  | Unreadable _ e => Raise e
  end.

Record response : Type := mkResponse {
  status_code : Z;
  content : document
}.

(** [response.json()] *)
Definition response_json (r : response) : result pyval :=
  match content r with
  | Json v => Ret v
  | NotJson _ => Raise JSONDecodeError
  | Unreadable _ e => Raise e
  end.

(** Text shown to the user or printed: the literal parts of an f-string
    and the values interpolated with their [str()]. *)
Inductive frag : Type :=
| Lit (s : string)
| Str (v : pyval).

Definition text := list frag.

Record datetime : Type := mkDatetime {
  year : Z; month : Z; day : Z;
  hour : Z; minute : Z; second : Z
}.

Record payload : Type := mkPayload {
  p_from : string;
  p_to : pyval;
  p_subject : string;
  p_html : string
}.

Inductive event : Type :=
| EvGet (url : string) (params : list (string * string))
| EvPost (url : string) (authorization : string) (body : payload)
| EvSleep (seconds : Z)
| EvWarning (msg : text)
| EvError (msg : text)
| EvInfo (msg : text)
| EvSuccess (msg : text)
| EvPrint (msg : text)
| EvOpen (path : string) (mode : string)
| EvWrite (path : string) (v : pyval).

(** What the program runs against.  [price_api n] is the outcome of the
    [n]-th GET, [email_api n p] the outcome of the [n]-th POST when it
    carries payload [p], [clock n] the local time at the [n]-th reading of
    the clock; an outcome is a response or a transport exception.
    [subscribers_json] is the subscriber file ([None]: no such file) and
    [trace] the observable events so far, oldest first. *)
Record world : Type := mkWorld {
  RESEND_API_KEY : string;
  price_api : nat -> result response;
  gets : nat;
  email_api : nat -> payload -> result response;
  posts : nat;
  clock : nat -> datetime;
  ticks : nat;
  subscribers_json : option document;
  trace : list event
}.

Definition log (e : event) (w : world) : world :=
  mkWorld (RESEND_API_KEY w) (price_api w) (gets w) (email_api w) (posts w)
          (clock w) (ticks w) (subscribers_json w) (trace w ++ [e]).

Definition count_get (w : world) : world :=
  mkWorld (RESEND_API_KEY w) (price_api w) (S (gets w)) (email_api w) (posts w)
          (clock w) (ticks w) (subscribers_json w) (trace w).

Definition count_post (w : world) : world :=
  mkWorld (RESEND_API_KEY w) (price_api w) (gets w) (email_api w) (S (posts w))
          (clock w) (ticks w) (subscribers_json w) (trace w).

Definition count_tick (w : world) : world :=
  mkWorld (RESEND_API_KEY w) (price_api w) (gets w) (email_api w) (posts w)
          (clock w) (S (ticks w)) (subscribers_json w) (trace w).

Definition set_file (d : document) (w : world) : world :=
  mkWorld (RESEND_API_KEY w) (price_api w) (gets w) (email_api w) (posts w)
          (clock w) (ticks w) (Some d) (trace w).

(* ------------------------------------------------------------------ *)
(** ** The monad *)

Definition M (A : Type) : Type := world -> result A * world.

Definition ret {A} (a : A) : M A := fun w => (Ret a, w).

Definition raise {A} (e : exn) : M A := fun w => (Raise e, w).

Definition bind {A B} (c : M A) (k : A -> M B) : M B :=
  fun w =>
    match c w with
    | (Ret a, w') => k a w'
    | (Raise e, w') => (Raise e, w')
    end.

Definition lift {A} (r : result A) : M A := fun w => (r, w).

Definition emit (e : event) : M unit := fun w => (Ret tt, log e w).

Declare Scope py_scope.
Delimit Scope py_scope with py.
Notation "x <- c ;; k" := (bind c (fun x => k))
  (at level 61, c at next level, right associativity) : py_scope.
Notation "c ;; k" := (bind c (fun _ => k))
  (at level 61, right associativity) : py_scope.
Local Open Scope py_scope.

(** *** Library calls *)

Definition st_warning (msg : text) : M unit := emit (EvWarning msg).
Definition st_error (msg : text) : M unit := emit (EvError msg).
Definition st_info (msg : text) : M unit := emit (EvInfo msg).
Definition st_success (msg : text) : M unit := emit (EvSuccess msg).
Definition print (msg : text) : M unit := emit (EvPrint msg).

(** The longest sleep, in seconds, that fits the signed 64-bit count of
    nanoseconds to which [time.sleep] converts its argument. *)
Definition max_sleep : Z := 9223372036.

(** [time.sleep(d)] for an integer [d]: the conversion to nanoseconds
    raises [OverflowError] outside [-max_sleep .. max_sleep]; after it a
    negative length is refused with [ValueError]. *)
Definition time_sleep (d : Z) : M unit :=
  if (d <? - max_sleep) || (max_sleep <? d) then raise OverflowError
  else if d <? 0 then raise ValueError
  else emit (EvSleep d).

Definition requests_get (url : string) (params : list (string * string))
  : M response :=
  fun w => (price_api w (gets w), count_get (log (EvGet url params) w)).

Definition requests_post (url authorization : string) (p : payload)
  : M response :=
  fun w => (email_api w (posts w) p,
            count_post (log (EvPost url authorization p) w)).

Definition datetime_now : M datetime :=
  fun w => (Ret (clock w (ticks w)), count_tick w).

(* ------------------------------------------------------------------ *)
(** ** [fetch_crypto_data] *)

Definition price_url : string := "https://api.coingecko.com/api/v3/simple/price".

Definition price_params : list (string * string) :=
  [("ids", "bitcoin,ethereum"); ("vs_currencies", "usd");
   ("include_24hr_change", "true")].

(** The body of [for attempt in range(max_retries)], started at [attempt]
    with [n] iterations left; falling out of the loop returns [None]. *)
Fixpoint fetch_loop (n : nat) (attempt max_retries retry_delay : Z)
  : M pyval :=
  match n with
  | O => ret PyNone
  | S n' =>
      response <- requests_get price_url price_params ;;
      if status_code response =? 200 then
        lift (response_json response)
      else if status_code response =? 429 then
        if attempt <? max_retries - 1 then
          st_warning [Lit "Rate limit hit. Retrying in "; Str (PyInt retry_delay);
                      Lit " seconds..."] ;;
          time_sleep retry_delay ;;
          fetch_loop n' (attempt + 1) max_retries (retry_delay * 2)
        else
          st_error [Lit "Rate limit exceeded. Please try again later."] ;;
          fetch_loop n' (attempt + 1) max_retries retry_delay
      else
        st_error [Lit "Error fetching data: "; Str (PyInt (status_code response))] ;;
        ret PyNone
  end.

Definition fetch_crypto_data (max_retries retry_delay : Z) : M pyval :=
  fetch_loop (Z.to_nat max_retries) 0 max_retries retry_delay.

(* ------------------------------------------------------------------ *)
(** ** Formatting *)

Definition digits (n : Z) : string :=
  NilZero.string_of_uint (N.to_uint (Z.to_N n)).

Fixpoint zeros (k : nat) : string :=
  match k with
  | O => EmptyString
  | S k' => String "0" (zeros k')
  end.

(** Decimal digits of [n], padded with zeros on the left to [width]. *)
Definition zero_pad (width : nat) (n : Z) : string :=
  let s := digits n in
  (zeros (width - String.length s) ++ s)%string.

(** [commas s k]: [s] with a comma after its first [k] characters and
    after every three characters from there on. *)
Fixpoint commas (s : string) (k : nat) : string :=
  match s with
  | EmptyString => EmptyString
  | String c rest =>
      match k with
      | O => String "," (String c (commas rest 2))
      | S k' => String c (commas rest k')
      end
  end.

(** The [,] option of the format specification. *)
Definition group_thousands (s : string) : string :=
  commas s (S ((String.length s - 1) mod 3)).

(** The number of hundredths nearest to [m * 2^e], ties to even: the
    correctly rounded decimal conversion [float.__format__] performs. *)
Definition round_hundredths (m : positive) (e : Z) : Z :=
  if 0 <=? e then Z.pos m * 2 ^ e * 100
  else
    let den := 2 ^ (- e) in
    let num := Z.pos m * 100 in
    let q := num / den in
    let r := num mod den in
    if 2 * r <? den then q
    else if den <? 2 * r then q + 1
    else if Z.even q then q else q + 1.

(** [format(f, ".2f")], and [format(f, ",.2f")] when [grouping]. *)
Definition format_float (grouping : bool) (f : spec_float) : string :=
  let sign (s : bool) := if s then "-" else EmptyString in
  match f with
  | S754_nan => "nan"
  | S754_infinity s => (sign s ++ "inf")%string
  | S754_zero s => (sign s ++ "0.00")%string
  | S754_finite s m e =>
      let n := round_hundredths m e in
      let int_part := digits (n / 100) in
      (sign s ++ (if grouping then group_thousands int_part else int_part)
         ++ "." ++ zero_pad 2 (n mod 100))%string
  end.

(** [float(z)]: the binary64 number nearest to [z], ties to even. *)
Definition float_of_int (z : Z) : result spec_float :=
  match binary_normalize 53 1024 z 0 false with
  | S754_infinity _ => Raise OverflowError
  | f => Ret f
  end.

(** [format(v, ".2f")] / [format(v, ",.2f")], the conversions the
    f-string in [create_email_content] applies. *)
Definition py_format (grouping : bool) (v : pyval) : result string :=
  match v with
  | PyFloat f => Ret (format_float grouping f)
  | PyInt z =>
      match float_of_int z with
      | Ret f => Ret (format_float grouping f)
      | Raise e => Raise e
      end
  | PyBool b => Ret (format_float grouping (if b then binary_normalize 53 1024 1 0 false
                                            else S754_zero false))
  | PyStr _ => Raise ValueError
  | PyNone | PyList _ | PyDict _ => Raise TypeError
  end.

(** [d.strftime('%Y-%m-%d')]: the year in decimal (four digits for every
    year from 1000 on), month and day on two digits. *)
Definition strftime_Ymd (d : datetime) : string :=
  (digits (year d) ++ "-" ++ zero_pad 2 (month d) ++ "-" ++ zero_pad 2 (day d))%string.

(** The binary64 number a decimal literal [num / 10^scale] denotes, for
    [|num| < 2^53] and [scale <= 22]: both operands are then exact and
    their correctly rounded quotient is the number nearest to the
    literal, which is what [float()] and the JSON decoder produce. *)
Definition float_literal (num : Z) (scale : Z) : spec_float :=
  SFdiv 53 1024 (binary_normalize 53 1024 num 0 false)
                (binary_normalize 53 1024 (10 ^ scale) 0 false).

(* ------------------------------------------------------------------ *)
(** ** [send_email] *)

Definition email_url : string := "https://api.resend.com/emails".

Definition sender : string := "Crypto Updates <onboarding@resend.dev>".

Definition send_email (recipient : pyval) (subject html_content : string)
  : M (bool * pyval) :=
  fun w =>
    (response <- requests_post email_url ("Bearer " ++ RESEND_API_KEY w)%string
                   (mkPayload sender recipient subject html_content) ;;
     body <- lift (response_json response) ;;
     ret (status_code response =? 200, body)) w.

(* ------------------------------------------------------------------ *)
(** ** [create_email_content] *)

Definition nl : string := String (ascii_of_nat 10) EmptyString.

(** The f-string of [create_email_content], with the date already
    formatted; the four numbers are converted in the order they occur. *)
Definition html_template (date : string)
           (btc_price btc_change eth_price eth_change : pyval)
  : result string :=
  match py_format true btc_price with
  | Raise e => Raise e
  | Ret bp =>
  match py_format false btc_change with
  | Raise e => Raise e
  | Ret bc =>
  match py_format true eth_price with
  | Raise e => Raise e
  | Ret ep =>
  match py_format false eth_change with
  | Raise e => Raise e
  | Ret ec =>
      Ret (nl ++ "    <h2>Daily Cryptocurrency Update</h2>"
        ++ nl ++ "    <p>Date: " ++ date ++ "</p>"
        ++ nl ++ "    <h3>Bitcoin (BTC)</h3>"
        ++ nl ++ "    <p>Current Price: $" ++ bp ++ "</p>"
        ++ nl ++ "    <p>24h Change: " ++ bc ++ "%</p>"
        ++ nl ++ "    <h3>Ethereum (ETH)</h3>"
        ++ nl ++ "    <p>Current Price: $" ++ ep ++ "</p>"
        ++ nl ++ "    <p>24h Change: " ++ ec ++ "%</p>"
        ++ nl ++ "    ")%string
  end end end end.

Definition create_email_content (crypto_data : pyval) : M string :=
  bitcoin <- lift (subscript crypto_data "bitcoin") ;;
  btc_price <- lift (subscript bitcoin "usd") ;;
  bitcoin <- lift (subscript crypto_data "bitcoin") ;;
  btc_change <- lift (subscript bitcoin "usd_24h_change") ;;
  ethereum <- lift (subscript crypto_data "ethereum") ;;
  eth_price <- lift (subscript ethereum "usd") ;;
  ethereum <- lift (subscript crypto_data "ethereum") ;;
  eth_change <- lift (subscript ethereum "usd_24h_change") ;;
  now <- datetime_now ;;
  lift (html_template (strftime_Ymd now) btc_price btc_change eth_price eth_change).

(* ------------------------------------------------------------------ *)
(** ** The subscriber file *)

Definition subscribers_path : string := "subscribers.json".

Definition save_subscribers (subscribers : pyval) : M unit :=
  fun w =>
    (Ret tt,
     set_file (Json subscribers)
       (log (EvWrite subscribers_path subscribers)
          (log (EvOpen subscribers_path "w") w))).

(** [except (FileNotFoundError, json.JSONDecodeError)] *)
Definition caught (e : exn) : bool :=
  match e with
  | FileNotFoundError | JSONDecodeError => true
  | _ => false
  end.

(** [json.load(open("subscribers.json", "r"))] *)
Definition read_subscribers (file : option document) : result pyval :=
  match file with
  | None => Raise FileNotFoundError
  | Some d => json_load d
  end.

Definition load_subscribers : M pyval :=
  fun w =>
    let w' := log (EvOpen subscribers_path "r") w in
    match read_subscribers (subscribers_json w) with
    | Ret v => (Ret v, w')
    | Raise e => if caught e then (Ret (PyList []), w') else (Raise e, w')
    end.

(* ------------------------------------------------------------------ *)
(** ** [send_daily_updates] *)

Definition digest_subject : string := "Daily Cryptocurrency Update".

(** [for email in subscribers: ...] over the remaining items. *)
Fixpoint send_loop (subject email_content : string) (todo : list pyval)
  : M unit :=
  match todo with
  | [] => ret tt
  | email :: rest =>
      sr <- send_email email subject email_content ;;
      (if fst sr then
         print [Lit "Email sent successfully to "; Str email]
       else
         print [Lit "Failed to send email to "; Str email; Lit ": "; Str (snd sr)]) ;;
      send_loop subject email_content rest
  end.

Definition send_daily_updates : M unit :=
  subscribers <- load_subscribers ;;
  if negb (truthy subscribers) then
    print [Lit "No subscribers to send emails to."]
  else
    crypto_data <- fetch_crypto_data 3 5 ;;
    if negb (truthy crypto_data) then
      print [Lit "Failed to fetch cryptocurrency data."]
    else
      email_content <- create_email_content crypto_data ;;
      todo <- lift (py_iter subscribers) ;;
      send_loop digest_subject email_content todo.

(* ------------------------------------------------------------------ *)
(** ** The subscription form of [main] *)

(** What [main] does when the "Subscribe" button is pressed with [email]
    in the text input. *)
Definition subscribe (email : string) : M unit :=
  if negb (truthy (PyStr email)) || negb (contains "@" email) then
    st_error [Lit "Please enter a valid email address."]
  else
    subscribers <- load_subscribers ;;
    present <- lift (py_in email subscribers) ;;
    if present then
      st_info [Lit "You are already subscribed!"]
    else
      subscribers <- lift (py_append subscribers (PyStr email)) ;;
      save_subscribers subscribers ;;
      st_success [Lit "Successfully subscribed to daily cryptocurrency updates!"].

(* ------------------------------------------------------------------ *)
(** ** [main] *)

(** What [main] draws on the page besides the banners, which go to the
    trace of the world. *)
Inductive widget : Type :=
| WTitle (s : string)
| WExpander (label : string) (expanded : bool)
| WColumns (n : Z)
| WSubheader (s : string)
| WWrite (s : string)
| WWriteValue (v : pyval)
| WTextInput (label : string)
| WButton (label : string).

(** One run of the page script: the world and the widgets drawn so far,
    oldest first. *)
Record session : Type := mkSession {
  s_world : world;
  s_page : list widget
}.

(** What the visitor did before the run: the text in the address field
    and the button that was pressed, if any. *)
Record inputs : Type := mkInputs {
  email_input : string;
  subscribe_pressed : bool;
  send_pressed : bool
}.

Definition UI (A : Type) : Type := session -> result A * session.

Definition ui_ret {A} (a : A) : UI A := fun s => (Ret a, s).

Definition ui_bind {A B} (c : UI A) (k : A -> UI B) : UI B :=
  fun s =>
    match c s with
    | (Ret a, s') => k a s'
    | (Raise e, s') => (Raise e, s')
    end.

(** A call of one of the functions above from the page script. *)
Definition call {A} (c : M A) : UI A :=
  fun s =>
    match c (s_world s) with
    | (r, w') => (r, mkSession w' (s_page s))
    end.

Definition draw (wd : widget) : UI unit :=
  fun s => (Ret tt, mkSession (s_world s) (s_page s ++ [wd])).

Declare Scope ui_scope.
Delimit Scope ui_scope with ui.
Notation "x <- c ;; k" := (ui_bind c (fun x => k))
  (at level 61, c at next level, right associativity) : ui_scope.
Notation "c ;; k" := (ui_bind c (fun _ => k))
  (at level 61, right associativity) : ui_scope.

(** [for email in subscribers: st.write(email)] *)
Fixpoint write_each (todo : list pyval) : UI unit :=
  match todo with
  | [] => ui_ret tt
  | email :: rest => ui_bind (draw (WWriteValue email)) (fun _ => write_each rest)
  end.

(** The "Current Cryptocurrency Rates" panel. *)
Definition rates_panel : UI unit :=
  (draw (WExpander "Current Cryptocurrency Rates" true) ;;
   crypto_data <- call (fetch_crypto_data 3 5) ;;
   if truthy crypto_data then
     draw (WColumns 2) ;;
     draw (WSubheader "Bitcoin (BTC)") ;;
     bitcoin <- call (lift (subscript crypto_data "bitcoin")) ;;
     usd <- call (lift (subscript bitcoin "usd")) ;;
     price <- call (lift (py_format true usd)) ;;
     draw (WWrite ("Price: $" ++ price)) ;;
     bitcoin <- call (lift (subscript crypto_data "bitcoin")) ;;
     change <- call (lift (subscript bitcoin "usd_24h_change")) ;;
     change <- call (lift (py_format false change)) ;;
     draw (WWrite ("24h Change: " ++ change ++ "%")) ;;
     draw (WSubheader "Ethereum (ETH)") ;;
     ethereum <- call (lift (subscript crypto_data "ethereum")) ;;
     usd <- call (lift (subscript ethereum "usd")) ;;
     price <- call (lift (py_format true usd)) ;;
     draw (WWrite ("Price: $" ++ price)) ;;
     ethereum <- call (lift (subscript crypto_data "ethereum")) ;;
     change <- call (lift (subscript ethereum "usd_24h_change")) ;;
     change <- call (lift (py_format false change)) ;;
     draw (WWrite ("24h Change: " ++ change ++ "%"))
   else
     ui_ret tt)%ui.

(** The "Current Subscribers" panel. *)
Definition subscribers_panel : UI unit :=
  (draw (WExpander "Current Subscribers" false) ;;
   subscribers <- call load_subscribers ;;
   if truthy subscribers then
     todo <- call (lift (py_iter subscribers)) ;;
     write_each todo
   else
     draw (WWrite "No subscribers yet."))%ui.

Definition main (i : inputs) : UI unit :=
  (draw (WTitle "Cryptocurrency Email Updates") ;;
   rates_panel ;;
   draw (WSubheader "Subscribe to Daily Updates") ;;
   draw (WTextInput "Enter your email address:") ;;
   draw (WButton "Subscribe") ;;
   (if subscribe_pressed i then call (subscribe (email_input i)) else ui_ret tt) ;;
   subscribers_panel ;;
   draw (WButton "Send Test Email") ;;
   if send_pressed i then
     call send_daily_updates ;;
     call (st_success [Lit "Test emails sent!"])
   else
     ui_ret tt)%ui.

(** A run of the page script in world [w] on an empty page. *)
Definition run_main (i : inputs) (w : world) : result unit * session :=
  main i (mkSession w []).

(* ================================================================== *)
(** * Part II: observations and vocabulary of the statements *)

(* ------------------------------------------------------------------ *)
(** ** Observations on traces *)

(** The lengths of the sleeps in a trace, in order. *)
Fixpoint sleeps (evs : list event) : list Z :=
  match evs with
  | [] => []
  | EvSleep d :: rest => d :: sleeps rest
  | _ :: rest => sleeps rest
  end.

(** The recipients of the POSTs in a trace, in order. *)
Fixpoint recipients (evs : list event) : list pyval :=
  match evs with
  | [] => []
  | EvPost _ _ p :: rest => p_to p :: recipients rest
  | _ :: rest => recipients rest
  end.

(** The values written to a file in a trace, in order. *)
Fixpoint writes (evs : list event) : list pyval :=
  match evs with
  | [] => []
  | EvWrite _ v :: rest => v :: writes rest
  | _ :: rest => writes rest
  end.

(** The lines printed in a trace, in order. *)
Fixpoint prints (evs : list event) : list text :=
  match evs with
  | [] => []
  | EvPrint t :: rest => t :: prints rest
  | _ :: rest => prints rest
  end.

(* ------------------------------------------------------------------ *)
(** ** The retry loop *)

(** The world [w] after [g] more GETs that added [evs] to the trace. *)
Definition after_gets (g : nat) (evs : list event) (w : world) : world :=
  mkWorld (RESEND_API_KEY w) (price_api w) (gets w + g) (email_api w) (posts w)
          (clock w) (ticks w) (subscribers_json w) (trace w ++ evs).

(** One rate-limited attempt that is followed by a retry. *)
Definition backoff_round (d : Z) : list event :=
  [EvGet price_url price_params;
   EvWarning [Lit "Rate limit hit. Retrying in "; Str (PyInt d); Lit " seconds..."];
   EvSleep d].


(** The delays [d * 2^0, ..., d * 2^(k-1)]. *)
Definition doubling (d : Z) (k : nat) : list Z :=
  map (fun i => d * 2 ^ Z.of_nat i) (seq 0 k).

(** The first [k] delays of the doubling sequence from [d] are lengths
    that [time.sleep] accepts: not negative and at most [max_sleep]. *)
Definition sleepable (d : Z) (k : nat) : Prop :=
  forall i, (i < k)%nat -> 0 <= d * 2 ^ Z.of_nat i <= max_sleep.

(* ------------------------------------------------------------------ *)
(** ** The digest *)

Definition and_then {A B} (r : result A) (k : A -> result B) : result B :=
  match r with
  | Ret a => k a
  | Raise e => Raise e
  end.

(** The digest as a function of a snapshot and a date: the subject line
    [send_daily_updates] uses together with the body
    [create_email_content] builds. *)
Definition render (snapshot : pyval) (date : string) : result (string * string) :=
  and_then (subscript snapshot "bitcoin") (fun bitcoin =>
  and_then (subscript bitcoin "usd") (fun btc_price =>
  and_then (subscript bitcoin "usd_24h_change") (fun btc_change =>
  and_then (subscript snapshot "ethereum") (fun ethereum =>
  and_then (subscript ethereum "usd") (fun eth_price =>
  and_then (subscript ethereum "usd_24h_change") (fun eth_change =>
  and_then (html_template date btc_price btc_change eth_price eth_change)
           (fun body => Ret (digest_subject, body)))))))).

(** The local date at the next reading of the clock. *)
Definition today (w : world) : string := strftime_Ymd (clock w (ticks w)).

(** Everything of the world except the clock's position. *)
Definition same_io (w w' : world) : Prop :=
  trace w' = trace w /\
  gets w' = gets w /\
  posts w' = posts w /\
  subscribers_json w' = subscribers_json w.

(* ------------------------------------------------------------------ *)
(** ** The subscriber store *)

(** An address the form accepts: not empty and with an "@" in it. *)
Definition valid_email (email : string) : Prop := contains "@" email = true.

(** How often [email] occurs in a list of stored values. *)
Definition occurrences (email : string) (l : list pyval) : nat :=
  List.length (filter (str_eq email) l).

(** The list [load_subscribers] hands out for a subscriber file, when it
    hands out a list: the empty list for a file that is absent or that
    the decoder rejects with [JSONDecodeError], the stored list for a
    JSON list.  There is none for JSON of another kind, nor for a file
    on which reading raises another exception, which [load_subscribers]
    lets through. *)
Definition stored_list (file : option document) : option (list pyval) :=
  match file with
  | None => Some []
  | Some (NotJson _) => Some []
  | Some (Json (PyList l)) => Some l
  | Some (Json _) => None
  | Some (Unreadable _ _) => None
  end.

(** The subscriber file after "Subscribe" was pressed twice in a row
    with the same address. *)
Definition after_two_subscribes (email : string) (w : world) : option document :=
  subscribers_json (snd (subscribe email (snd (subscribe email w)))).

(* ------------------------------------------------------------------ *)
(** ** Delivery *)

(** The line [send_daily_updates] prints for a recipient whose POST was
    answered by [r] with the JSON body [body]. *)
Definition report (email : pyval) (r : response) (body : pyval) : text :=
  if status_code r =? 200 then
    [Lit "Email sent successfully to "; Str email]
  else
    [Lit "Failed to send email to "; Str email; Lit ": "; Str body].

(** The lines for the recipients [todo], the first of them served by
    POST number [n], as long as every answer is a response with a JSON
    body. *)
Fixpoint reports (api : nat -> payload -> result response) (n : nat)
         (subject html : string) (todo : list pyval) : list text :=
  match todo with
  | [] => []
  | email :: rest =>
      match api n (mkPayload sender email subject html) with
      | Ret r =>
          match content r with
          | Json body => report email r body :: reports api (S n) subject html rest
          | _ => []
          end
      | Raise _ => []
      end
  end.

(* ------------------------------------------------------------------ *)
(** ** Worlds and values for the examples *)

(** A snapshot with integer prices. *)
Definition snapshot_small : pyval :=
  PyDict [("bitcoin", PyDict [("usd", PyInt 65000); ("usd_24h_change", PyInt 1)]);
          ("ethereum", PyDict [("usd", PyInt 3200); ("usd_24h_change", PyInt 2)])].

(** A world at rest: both APIs answer 200 with a JSON body, it is
    2024-01-15 08:00, there is no subscriber file and nothing has
    happened yet. *)
Definition world0 : world :=
  mkWorld "re_key" (fun _ => Ret (mkResponse 200 (Json snapshot_small))) 0
          (fun _ _ => Ret (mkResponse 200 (Json (PyDict [("id", PyStr "1")])))) 0
          (fun _ => mkDatetime 2024 1 15 8 0 0) 0 None [].

Definition with_price_api (api : nat -> result response) (w : world) : world :=
  mkWorld (RESEND_API_KEY w) api (gets w) (email_api w) (posts w)
          (clock w) (ticks w) (subscribers_json w) (trace w).

Definition with_email_api (api : nat -> payload -> result response) (w : world)
  : world :=
  mkWorld (RESEND_API_KEY w) (price_api w) (gets w) api (posts w)
          (clock w) (ticks w) (subscribers_json w) (trace w).

Definition with_file (f : option document) (w : world) : world :=
  mkWorld (RESEND_API_KEY w) (price_api w) (gets w) (email_api w) (posts w)
          (clock w) (ticks w) f (trace w).

Definition with_clock (c : nat -> datetime) (w : world) : world :=
  mkWorld (RESEND_API_KEY w) (price_api w) (gets w) (email_api w) (posts w)
          c (ticks w) (subscribers_json w) (trace w).

(** The answer of a rate-limited price API. *)
Definition too_many_requests : response :=
  mkResponse 429 (Json (PyDict [("status", PyStr "rate limited")])).


(** The price API is rate limited for good. *)
Definition always_limited : world :=
  with_price_api (fun _ => Ret too_many_requests) world0.

(** Two worlds that differ in everything the digest could be suspected
    to depend on, at two moments of the same day. *)
Definition morning : world :=
  with_clock (fun _ => mkDatetime 2024 1 15 8 0 0) world0.

(** The morning after [morning]. *)
Definition next_morning : world :=
  with_clock (fun _ => mkDatetime 2024 1 16 8 0 0) world0.

Definition evening : world :=
  log (EvPrint [Lit "earlier output"])
    (with_file (Some (Json (PyList [PyStr "a@x.com"])))
       (with_clock (fun _ => mkDatetime 2024 1 15 23 59 59) always_limited)).

(** The snapshot [{bitcoin: {usd: 65000.5, usd_24h_change: -2.345},
    ethereum: {usd: 3200.0, usd_24h_change: 1.2}}]. *)
Definition snapshot_example : pyval :=
  PyDict [("bitcoin", PyDict [("usd", PyFloat (float_literal 650005 1));
                              ("usd_24h_change", PyFloat (float_literal (-2345) 3))]);
          ("ethereum", PyDict [("usd", PyFloat (float_literal 32000 1));
                               ("usd_24h_change", PyFloat (float_literal 12 1))])].

(** A subscriber file of the two bytes FF FE, which are no text in
    UTF-8: reading it raises [UnicodeDecodeError]. *)
Definition undecodable_file : world :=
  with_file
    (Some (Unreadable (String (ascii_of_nat 255) (String (ascii_of_nat 254) EmptyString))
                      UnicodeDecodeError))
    world0.

(** A subscriber file cut off in the middle of a write. *)
Definition corrupt_file : world :=
  with_file (Some (NotJson "[1, 2")) world0.

(** A subscriber file that holds one address twice (it is a JSON array of
    address strings, as the file format asks for). *)
Definition duplicated : world :=
  with_file (Some (Json (PyList [PyStr "a@x.com"; PyStr "a@x.com"]))) world0.

(** A subscriber file with two addresses. *)
Definition two_subscribers : option document :=
  Some (Json (PyList [PyStr "a@x.com"; PyStr "b@y.com"])).

(** The answer of the e-mail API to a message it accepts. *)
Definition accepted : response :=
  mkResponse 200 (Json (PyDict [("id", PyStr "49a3999c")])).

(** The e-mail API answers the first POST with a gateway error page and
    accepts every later one. *)
Definition bad_gateway : world :=
  with_email_api
    (fun n _ => if (n =? 0)%nat
                then Ret (mkResponse 502 (NotJson "<html>502 Bad Gateway</html>"))
                else Ret accepted)
    (with_file two_subscribers world0).

(** The same two subscribers when the failed send comes with a JSON
    body: the failure is printed and [b@y.com] is served. *)
Definition rejected_first : world :=
  with_email_api
    (fun n _ => if (n =? 0)%nat
                then Ret (mkResponse 422 (Json (PyDict [("message", PyStr "invalid")])))
                else Ret accepted)
    (with_file two_subscribers world0).

(** The e-mail API accepts the first POST with a body that is not JSON. *)
Definition accepted_plain_text : world :=
  with_email_api
    (fun n _ => if (n =? 0)%nat
                then Ret (mkResponse 200 (NotJson "OK"))
                else Ret accepted)
    (with_file two_subscribers world0).

(* ------------------------------------------------------------------ *)
(** ** Further observations *)

(** The events the retry loop of [fetch_crypto_data] can add to a
    trace. *)
Definition fetch_event (e : event) : bool :=
  match e with
  | EvGet _ _ | EvSleep _ | EvWarning _ | EvError _ => true
  | _ => false
  end.

(** The POSTs in a trace, in order: URL, authorization header, payload. *)
Fixpoint posted (evs : list event) : list (string * string * payload) :=
  match evs with
  | [] => []
  | EvPost url auth p :: rest => (url, auth, p) :: posted rest
  | _ :: rest => posted rest
  end.

(** The files opened in a trace, in order: path and mode. *)
Fixpoint opened (evs : list event) : list (string * string) :=
  match evs with
  | [] => []
  | EvOpen path mode :: rest => (path, mode) :: opened rest
  | _ :: rest => opened rest
  end.



(** [snapshot[asset][key]] *)
Definition field (snapshot : pyval) (asset key : string) : result pyval :=
  and_then (subscript snapshot asset) (fun a => subscript a key).

(** The values the format specification [.2f] accepts: floats, booleans
    and the integers that [float()] can convert. *)
Definition is_number (v : pyval) : bool :=
  match v with
  | PyFloat _ | PyBool _ => true
  | PyInt z =>
      match float_of_int z with
      | Ret _ => true
      | Raise _ => false
      end
  | _ => false
  end.

(** An answer of the price API that lacks Ethereum. *)
Definition snapshot_bitcoin_only : pyval :=
  PyDict [("bitcoin", PyDict [("usd", PyInt 65000); ("usd_24h_change", PyInt 1)])].

(** The stored list after one press of "Subscribe" with [email], as a
    function of the stored list before. *)
Definition subscribed (email : string) (l : list pyval) : list pyval :=
  if contains "@" email && negb (existsb (str_eq email) l)
  then l ++ [PyStr email]
  else l.

(** "Subscribe" pressed once for each of [emails], in this order. *)
Fixpoint subscribe_each (emails : list string) : M unit :=
  match emails with
  | [] => ret tt
  | email :: rest => subscribe email ;; subscribe_each rest
  end.

(** A subscriber file that holds a JSON object instead of a list. *)
Definition object_file : world :=
  with_file (Some (Json (PyDict [("subscribers", PyList [])]))) world0.

(** The world [w] after [k] more POSTs that added [evs] to the trace. *)
Definition after_posts (k : nat) (evs : list event) (w : world) : world :=
  mkWorld (RESEND_API_KEY w) (price_api w) (gets w) (email_api w) (posts w + k)
          (clock w) (ticks w) (subscribers_json w) (trace w ++ evs).

(** The POST [send_email] makes in world [w] for [recipient]. *)
Definition post_to (w : world) (subject html : string) (recipient : pyval)
  : string * string * payload :=
  (email_url, ("Bearer " ++ RESEND_API_KEY w)%string,
   mkPayload sender recipient subject html).

(** A run from [w] to [w'] that leaves the subscriber file, the APIs and
    the clock as they are and adds [evs] to the trace. *)
Definition runs (w w' : world) (evs : list event) : Prop :=
  RESEND_API_KEY w' = RESEND_API_KEY w /\
  price_api w' = price_api w /\
  email_api w' = email_api w /\
  clock w' = clock w /\
  subscribers_json w' = subscribers_json w /\
  trace w' = trace w ++ evs.

(** The e-mail API is unreachable. *)
Definition email_api_down : world :=
  with_email_api (fun _ _ => Raise ConnectionError)
                 (with_file two_subscribers world0).

(** The values the "Current Subscribers" panel lists on a page, in
    order. *)
Fixpoint listed (page : list widget) : list pyval :=
  match page with
  | [] => []
  | WWriteValue v :: rest => v :: listed rest
  | _ :: rest => listed rest
  end.

(** The lines of text written on a page, in order. *)
Fixpoint written (page : list widget) : list string :=
  match page with
  | [] => []
  | WWrite s :: rest => s :: written rest
  | _ :: rest => written rest
  end.

(** A visit of the page without pressing a button. *)
Definition just_looking : inputs := mkInputs EmptyString false false.

(** A step of the page script that leaves the world alone and lists no
    subscriber. *)
Definition keeps {A} (c : UI A) : Prop :=
  forall s : session,
    s_world (snd (c s)) = s_world s /\
    listed (s_page (snd (c s))) = listed (s_page s).

(** The price API answers with a snapshot that lacks Bitcoin. *)
Definition ethereum_only : world :=
  with_price_api
    (fun _ => Ret (mkResponse 200
                     (Json (PyDict [("ethereum",
                                     PyDict [("usd", PyInt 3200);
                                             ("usd_24h_change", PyInt 2)])]))))
    world0.

(** What a failed POST raises in [send_email]: the transport's exception,
    or [JSONDecodeError] for an answer that is not JSON. *)
Definition post_failure (answer : result response) : option exn :=
  match answer with
  | Raise e => Some e
  | Ret r =>
      match content r with
      | NotJson _ => Some JSONDecodeError
      | Unreadable _ e => Some e
      | Json _ => None
      end
  end.

(** The e-mail API serves two POSTs and is unreachable from then on. *)
Definition down_after_two : world :=
  with_email_api
    (fun n _ => if (n <? 2)%nat then Ret accepted else Raise ConnectionError)
    world0.

(** The worlds the program can be in: it starts without a subscriber
    file, and from then on the file is touched by runs of the page script
    (with any input), by presses of "Subscribe" and by runs of
    [send_daily_updates] only. *)
Inductive reachable : world -> Prop :=
| reach_fresh (w : world) :
    subscribers_json w = None -> reachable w
| reach_subscribe (w : world) (email : string) :
    reachable w -> reachable (snd (subscribe email w))
| reach_send (w : world) :
    reachable w -> reachable (snd (send_daily_updates w))
| reach_main (w : world) (i : inputs) :
    reachable w -> reachable (s_world (snd (run_main i w))).

(* ================================================================== *)
(** * Part III: theorems *)

(* ------------------------------------------------------------------ *)
(** ** Formatting *)

(** The conversions on values whose Python rendering is known: exact
    ties go to the even neighbour ([0.125], [0.375]), the sign of a
    negative number survives rounding to zero, a carry reaches the
    thousands separator, integers and booleans are converted to [float]
    first. *)
Example format_float_ties :
  format_float false (float_literal 125 3) = "0.12" /\
  format_float false (float_literal 375 3) = "0.38" /\
  format_float false (float_literal (-1) 3) = "-0.00" /\
  format_float true (float_literal 999995 3) = "1,000.00" /\
  format_float true (float_literal 123456789 3) = "123,456.79".
Proof. vm_compute. repeat split. Qed.

Example py_format_values :
  py_format true (PyInt (-1234567)) = Ret "-1,234,567.00" /\
  py_format true (PyInt (2 ^ 53 + 1)) = Ret "9,007,199,254,740,992.00" /\
  py_format true (PyInt (10 ^ 400)) = Raise OverflowError /\
  py_format false (PyBool true) = Ret "1.00" /\
  py_format false (PyStr "1.5") = Raise ValueError /\
  py_format false PyNone = Raise TypeError /\
  py_format true (PyFloat S754_nan) = Ret "nan" /\
  py_format true (PyFloat (S754_infinity true)) = Ret "-inf".
Proof. vm_compute. repeat split. Qed.

Example strftime_Ymd_example :
  strftime_Ymd (mkDatetime 2024 1 15 8 0 0) = "2024-01-15".
Proof. reflexivity. Qed.

(* ------------------------------------------------------------------ *)
(** ** Traces *)

Lemma sleeps_app (a b : list event) : sleeps (a ++ b) = sleeps a ++ sleeps b.
Proof.
  induction a as [|e a IH]; simpl; [reflexivity|].
  destruct e; simpl; rewrite IH; reflexivity.
Qed.

Lemma recipients_app (a b : list event) :
  recipients (a ++ b) = recipients a ++ recipients b.
Proof.
  induction a as [|e a IH]; simpl; [reflexivity|].
  destruct e; simpl; rewrite IH; reflexivity.
Qed.

Lemma writes_app (a b : list event) : writes (a ++ b) = writes a ++ writes b.
Proof.
  induction a as [|e a IH]; simpl; [reflexivity|].
  destruct e; simpl; rewrite IH; reflexivity.
Qed.

Lemma prints_app (a b : list event) : prints (a ++ b) = prints a ++ prints b.
Proof.
  induction a as [|e a IH]; simpl; [reflexivity|].
  destruct e; simpl; rewrite IH; reflexivity.
Qed.

Lemma doubling_S (d : Z) (k : nat) :
  doubling d (S k) = d :: doubling (d * 2) k.
Proof.
  unfold doubling. simpl seq. simpl map. f_equal.
  - simpl. lia.
  - rewrite <- seq_shift, map_map. apply map_ext. intros i.
    rewrite Nat2Z.inj_succ, Z.pow_succ_r by lia. lia.
Qed.


Lemma after_gets_0 (w : world) : after_gets 0 [] w = w.
Proof.
  destruct w. unfold after_gets. simpl. rewrite Nat.add_0_r, app_nil_r. reflexivity.
Qed.

(* ------------------------------------------------------------------ *)
(** ** The retry policy of [fetch_crypto_data] *)




Lemma sleepable_le (d : Z) (k k' : nat) :
  (k' <= k)%nat -> sleepable d k -> sleepable d k'.
Proof. intros Hle H i Hi. apply H. lia. Qed.






(* ------------------------------------------------------------------ *)
(** ** The digest *)

Lemma create_email_content_render (crypto_data : pyval) (w : world) :
  fst (create_email_content crypto_data w) =
    and_then (render crypto_data (today w)) (fun sb => Ret (snd sb)) /\
  same_io w (snd (create_email_content crypto_data w)).
Proof.
  unfold create_email_content, render, today, bind, lift, datetime_now, same_io.
  destruct (subscript crypto_data "bitcoin") as [bitcoin|e]; cbn -[subscript html_template];
    [|repeat split].
  destruct (subscript bitcoin "usd") as [btc_price|e]; cbn -[subscript html_template];
    [|repeat split].
  destruct (subscript bitcoin "usd_24h_change") as [btc_change|e];
    cbn -[subscript html_template]; [|repeat split].
  destruct (subscript crypto_data "ethereum") as [ethereum|e];
    cbn -[subscript html_template]; [|repeat split].
  destruct (subscript ethereum "usd") as [eth_price|e]; cbn -[subscript html_template];
    [|repeat split].
  destruct (subscript ethereum "usd_24h_change") as [eth_change|e];
    cbn -[subscript html_template]; [|repeat split].
  destruct (html_template _ btc_price btc_change eth_price eth_change);
    repeat split.
Qed.

(** What [create_email_content] does to the world: it reads the clock
    once, unless a field of the snapshot is missing. *)
Lemma create_email_content_world (crypto_data : pyval) (w : world) :
  (exists body, create_email_content crypto_data w = (Ret body, count_tick w)) \/
  (exists e, create_email_content crypto_data w = (Raise e, w)) \/
  (exists e, create_email_content crypto_data w = (Raise e, count_tick w)).
Proof.
  unfold create_email_content, bind, lift, datetime_now.
  destruct (subscript crypto_data "bitcoin") as [bitcoin|e];
    [|right; left; eexists; reflexivity].
  destruct (subscript bitcoin "usd") as [bp|e];
    [|right; left; eexists; reflexivity].
  destruct (subscript bitcoin "usd_24h_change") as [bc|e];
    [|right; left; eexists; reflexivity].
  destruct (subscript crypto_data "ethereum") as [ethereum|e];
    [|right; left; eexists; reflexivity].
  destruct (subscript ethereum "usd") as [ep|e];
    [|right; left; eexists; reflexivity].
  destruct (subscript ethereum "usd_24h_change") as [ec|e];
    [|right; left; eexists; reflexivity].
  destruct (html_template _ bp bc ep ec) as [body|e].
  - left. eexists. reflexivity.
  - right. right. eexists. reflexivity.
Qed.

Lemma render_subject (snapshot : pyval) (date : string) (sb : string * string) :
  render snapshot date = Ret sb -> fst sb = digest_subject.
Proof.
  unfold render.
  destruct (subscript snapshot "bitcoin") as [bitcoin|e]; cbn [and_then];
    [|discriminate].
  destruct (subscript bitcoin "usd") as [bp|e]; cbn [and_then]; [|discriminate].
  destruct (subscript bitcoin "usd_24h_change") as [bc|e]; cbn [and_then];
    [|discriminate].
  destruct (subscript snapshot "ethereum") as [ethereum|e]; cbn [and_then];
    [|discriminate].
  destruct (subscript ethereum "usd") as [ep|e]; cbn [and_then]; [|discriminate].
  destruct (subscript ethereum "usd_24h_change") as [ec|e]; cbn [and_then];
    [|discriminate].
  destruct (html_template date bp bc ep ec); cbn [and_then]; [|discriminate].
  intros [= <-]. reflexivity.
Qed.

(** C5, as stated, fails: [create_email_content] has the snapshot as its
    only argument and takes the date from the clock, so it is no function
    of its arguments.  Called with one and the same snapshot on two
    different days it returns two different bodies, and each call uses up
    a reading of the clock. *)
Lemma create_email_content_reads_clock :
  fst (create_email_content snapshot_small morning) <>
  fst (create_email_content snapshot_small next_morning) /\
  ticks (snd (create_email_content snapshot_small morning)) = S (ticks morning) /\
  today morning <> today next_morning.
Proof.
  split; [|split].
  - vm_compute. discriminate.
  - reflexivity.
  - vm_compute. discriminate.
Qed.

(** C5, amended.  [create_email_content] takes the snapshot and reads
    the local date from the clock; its result is a deterministic function
    of the snapshot and of that date.  On the same snapshot, in any two
    worlds (any two moments) whose local date is the same, it yields
    byte-identical bodies (or the same exception), equal to the body of
    [render snapshot date], whose subject is always the one fixed subject
    line.  It reads the clock at most once, and exactly once when it
    returns a body; apart from that it sends no request, shows, prints and
    sleeps nothing and leaves the subscriber file alone. *)
Theorem create_email_content_deterministic :
  forall (snapshot : pyval) (w1 w2 : world),
    today w1 = today w2 ->
    fst (create_email_content snapshot w1) = fst (create_email_content snapshot w2) /\
    fst (create_email_content snapshot w1) =
      and_then (render snapshot (today w1)) (fun sb => Ret (snd sb)) /\
    (forall date sb, render snapshot date = Ret sb -> fst sb = digest_subject) /\
    same_io w1 (snd (create_email_content snapshot w1)) /\
    same_io w2 (snd (create_email_content snapshot w2)) /\
    (ticks (snd (create_email_content snapshot w1)) = ticks w1 \/
     ticks (snd (create_email_content snapshot w1)) = S (ticks w1)) /\
    (forall body, fst (create_email_content snapshot w1) = Ret body ->
                  ticks (snd (create_email_content snapshot w1)) = S (ticks w1)).
Proof.
  intros snapshot w1 w2 Hdate.
  destruct (create_email_content_render snapshot w1) as (E1 & IO1).
  destruct (create_email_content_render snapshot w2) as (E2 & IO2).
  split; [rewrite E1, E2, Hdate; reflexivity|].
  split; [exact E1|].
  split; [intros date sb; apply render_subject|].
  split; [exact IO1|]. split; [exact IO2|].
  destruct (create_email_content_world snapshot w1)
    as [(b & Ec) | [(e & Ec) | (e & Ec)]]; rewrite Ec; cbn [fst snd count_tick ticks].
  - split; [right; reflexivity | reflexivity].
  - split; [left; reflexivity | discriminate].
  - split; [right; reflexivity | discriminate].
Qed.

Lemma create_email_content_deterministic_witness :
  today morning = today evening /\
  fst (create_email_content snapshot_small morning) =
  fst (create_email_content snapshot_small evening).
Proof.
  split; [reflexivity|].
  apply (create_email_content_deterministic snapshot_small morning evening).
  reflexivity.
Defined.

(** The four numbers of [snapshot_example] as binary64 numbers
    (mantissa and exponent): [-2.345] and [1.2] are not representable and
    stand for their nearest neighbours. *)
Lemma snapshot_example_floats :
  float_literal 650005 1 = S754_finite false 8933600695156736 (-37) /\
  float_literal (-2345) 3 = S754_finite true 5280470563091907 (-51) /\
  float_literal 32000 1 = S754_finite false 7036874417766400 (-41) /\
  float_literal 12 1 = S754_finite false 5404319552844595 (-52).
Proof. repeat split; vm_compute; reflexivity. Qed.

(** The two inexact ones lie within half a unit in the last place of
    their literals, [2345/1000] and [12/10]. *)
Lemma snapshot_example_nearest :
  Z.abs (5280470563091907 * 1000 - 2345 * 2 ^ 51) * 2 <= 1000 /\
  Z.abs (5404319552844595 * 10 - 12 * 2 ^ 52) * 2 <= 10.
Proof. split; vm_compute; discriminate. Qed.

(** C6.  On 2024-01-15 the body rendered for [snapshot_example] contains
    "Current Price: $65,000.50", "24h Change: -2.35%",
    "Current Price: $3,200.00" and "24h Change: 1.20%". *)
Theorem create_email_content_example :
  forall w : world,
    today w = "2024-01-15" ->
    exists body,
      fst (create_email_content snapshot_example w) = Ret body /\
      contains "Current Price: $65,000.50" body = true /\
      contains "24h Change: -2.35%" body = true /\
      contains "Current Price: $3,200.00" body = true /\
      contains "24h Change: 1.20%" body = true.
Proof.
  intros w Hdate.
  destruct (create_email_content_render snapshot_example w) as (E & _).
  rewrite Hdate in E.
  eexists. split.
  - rewrite E. vm_compute. reflexivity.
  - repeat split; vm_compute; reflexivity.
Qed.

Lemma create_email_content_example_witness :
  exists body,
    fst (create_email_content snapshot_example morning) = Ret body /\
    contains "Current Price: $65,000.50" body = true /\
    contains "24h Change: -2.35%" body = true /\
    contains "Current Price: $3,200.00" body = true /\
    contains "24h Change: 1.20%" body = true.
Proof.
  apply (create_email_content_example morning). reflexivity.
Defined.

(* ------------------------------------------------------------------ *)
(** ** The subscriber store *)

Lemma load_subscribers_world (w : world) :
  snd (load_subscribers w) = log (EvOpen subscribers_path "r") w.
Proof.
  unfold load_subscribers.
  destruct (read_subscribers (subscribers_json w)) as [v|e]; [reflexivity|].
  destruct (caught e); reflexivity.
Qed.

(** C9, as stated, fails: a subscriber file whose bytes are no text
    cannot be parsed, and [load_subscribers] raises [UnicodeDecodeError]
    on it instead of returning the empty list. *)
Lemma load_subscribers_surfaces_corruption :
  subscribers_json undecodable_file <> None /\
  fst (load_subscribers undecodable_file) = Raise UnicodeDecodeError /\
  fst (load_subscribers undecodable_file) <> Ret (PyList []).
Proof.
  split; [discriminate|]. split; [reflexivity | discriminate].
Qed.

(** C9, amended.  [load_subscribers] returns the empty list when
    [subscribers.json] does not exist and when the decoder rejects its
    contents with [JSONDecodeError]: these two exceptions are swallowed.
    Every other exception raised while the file is read and decoded
    reaches the caller, and these are the only exceptions
    [load_subscribers] raises.  In each case the file is left as it
    is. *)
Theorem load_subscribers_absent_or_corrupt :
  forall w : world,
    (subscribers_json w = None \/
     exists raw, subscribers_json w = Some (NotJson raw)) ->
    fst (load_subscribers w) = Ret (PyList []) /\
    (forall (w0 : world) (raw : string) (e : exn),
        subscribers_json w0 = Some (Unreadable raw e) ->
        caught e = false ->
        fst (load_subscribers w0) = Raise e) /\
    (forall (w0 : world) (e : exn),
        fst (load_subscribers w0) = Raise e ->
        caught e = false /\
        exists raw, subscribers_json w0 = Some (Unreadable raw e)) /\
    (forall w0 : world,
        subscribers_json (snd (load_subscribers w0)) = subscribers_json w0 /\
        writes (trace (snd (load_subscribers w0))) = writes (trace w0)).
Proof.
  intros w H. split; [|split; [|split]].
  - unfold load_subscribers. destruct H as [-> | (raw & ->)]; reflexivity.
  - intros w0 raw e Hfile He. unfold load_subscribers. rewrite Hfile.
    cbn [read_subscribers json_load]. rewrite He. reflexivity.
  - intros w0 e. unfold load_subscribers.
    destruct (subscribers_json w0) as [[v|raw|raw e']|];
      cbn [read_subscribers json_load caught fst]; try discriminate.
    destruct (caught e') eqn:He'; cbn [fst]; [discriminate|].
    intros [= <-]. split; [exact He'|]. exists raw. reflexivity.
  - intros w0. rewrite load_subscribers_world. cbn.
    rewrite writes_app, app_nil_r. split; reflexivity.
Qed.

Lemma load_subscribers_absent_or_corrupt_witness :
  fst (load_subscribers world0) = Ret (PyList []) /\
  fst (load_subscribers corrupt_file) = Ret (PyList []).
Proof.
  split.
  - apply (load_subscribers_absent_or_corrupt world0). left. reflexivity.
  - apply (load_subscribers_absent_or_corrupt corrupt_file).
    right. exists "[1, 2". reflexivity.
Defined.

(** C8.  For every string without "@", the subscription form shows the
    invalid-address error and does nothing else: the subscriber file is
    neither opened nor written and keeps its contents. *)
Theorem subscribe_invalid :
  forall (email : string) (w : world),
    contains "@" email = false ->
    fst (subscribe email w) = Ret tt /\
    trace (snd (subscribe email w)) =
      trace w ++ [EvError [Lit "Please enter a valid email address."]] /\
    subscribers_json (snd (subscribe email w)) = subscribers_json w.
Proof.
  intros email w H. unfold subscribe. rewrite H.
  rewrite orb_true_r. repeat split.
Qed.

Lemma subscribe_invalid_witness :
  trace (snd (subscribe "nobody.example.com" world0)) =
    [EvError [Lit "Please enter a valid email address."]].
Proof.
  apply (subscribe_invalid "nobody.example.com" world0). reflexivity.
Defined.

Lemma existsb_occurrences (email : string) (l : list pyval) :
  existsb (str_eq email) l = negb (occurrences email l =? 0)%nat.
Proof.
  unfold occurrences. induction l as [|x l IH]; [reflexivity|].
  simpl. destruct (str_eq email x); simpl; [reflexivity|exact IH].
Qed.

Lemma occurrences_snoc (email : string) (l : list pyval) :
  occurrences email (l ++ [PyStr email]) = S (occurrences email l).
Proof.
  unfold occurrences. rewrite filter_app, List.length_app. simpl.
  rewrite String.eqb_refl. simpl. lia.
Qed.

Lemma valid_email_nonempty (email : string) :
  valid_email email -> truthy (PyStr email) = true.
Proof.
  unfold valid_email. destruct email; [discriminate|reflexivity].
Qed.

Lemma load_stored_list (w : world) (l : list pyval) :
  stored_list (subscribers_json w) = Some l ->
  load_subscribers w = (Ret (PyList l), log (EvOpen subscribers_path "r") w).
Proof.
  unfold load_subscribers, stored_list.
  destruct (subscribers_json w) as [[v|raw|raw e]|].
  - destruct v; try discriminate. intros [= ->]. reflexivity.
  - intros [= <-]. reflexivity.
  - discriminate.
  - intros [= <-]. reflexivity.
Qed.

(** One press of "Subscribe" with an address that is already stored. *)
Lemma subscribe_present (email : string) (w : world) (l : list pyval) :
  valid_email email ->
  stored_list (subscribers_json w) = Some l ->
  (0 < occurrences email l)%nat ->
  subscribe email w =
    (Ret tt, log (EvInfo [Lit "You are already subscribed!"])
               (log (EvOpen subscribers_path "r") w)).
Proof.
  intros Hv Hl Hocc. unfold subscribe.
  rewrite (valid_email_nonempty _ Hv), Hv. cbn [negb orb].
  unfold bind. rewrite (load_stored_list _ _ Hl).
  unfold lift, py_in. rewrite existsb_occurrences.
  destruct (Nat.eqb_spec (occurrences email l) 0); [lia|]. reflexivity.
Qed.

(** One press of "Subscribe" with an address that is not stored yet. *)
Lemma subscribe_new (email : string) (w : world) (l : list pyval) :
  valid_email email ->
  stored_list (subscribers_json w) = Some l ->
  occurrences email l = 0%nat ->
  subscribe email w =
    (Ret tt,
     log (EvSuccess [Lit "Successfully subscribed to daily cryptocurrency updates!"])
       (set_file (Json (PyList (l ++ [PyStr email])))
          (log (EvWrite subscribers_path (PyList (l ++ [PyStr email])))
             (log (EvOpen subscribers_path "w")
                (log (EvOpen subscribers_path "r") w))))).
Proof.
  intros Hv Hl Hocc. unfold subscribe.
  rewrite (valid_email_nonempty _ Hv), Hv. cbn [negb orb].
  unfold bind. rewrite (load_stored_list _ _ Hl).
  unfold lift, py_in. rewrite existsb_occurrences, Hocc. reflexivity.
Qed.

(** A file edited by hand so that it holds an address twice is left as
    it is: both presses report "already subscribed", nothing is written,
    and the two occurrences stay.  (No run of the program produces such a
    file, see [reachable_store] below.) *)
Lemma subscribe_twice_keeps_duplicates :
  valid_email "a@x.com" /\
  after_two_subscribes "a@x.com" duplicated =
    Some (Json (PyList [PyStr "a@x.com"; PyStr "a@x.com"])) /\
  ~ (exists l, stored_list (after_two_subscribes "a@x.com" duplicated) = Some l /\
               occurrences "a@x.com" l = 1%nat).
Proof.
  split; [reflexivity|]. split; [reflexivity|].
  intros (l & Hl & Hocc). vm_compute in Hl. injection Hl as <-.
  vm_compute in Hocc. discriminate.
Qed.

(** Two presses in a row on any stored list.  For every valid address
    and every subscriber file that is absent, rejected by the decoder
    with [JSONDecodeError], or a JSON list holding the address [n] times,
    pressing "Subscribe" twice in a row leaves a stored list that holds
    the address [max 1 n] times: exactly once whenever [n <= 1].  The
    second call reports "already subscribed", opens the file for reading
    only and writes nothing. *)
Lemma subscribe_twice :
  forall (email : string) (w : world) (l : list pyval),
    valid_email email ->
    stored_list (subscribers_json w) = Some l ->
    let w1 := snd (subscribe email w) in
    let w2 := snd (subscribe email w1) in
    fst (subscribe email w) = Ret tt /\
    fst (subscribe email w1) = Ret tt /\
    (exists l2, stored_list (subscribers_json w2) = Some l2 /\
                occurrences email l2 = Nat.max 1 (occurrences email l) /\
                ((occurrences email l <= 1)%nat -> occurrences email l2 = 1%nat)) /\
    trace w2 = trace w1 ++ [EvOpen subscribers_path "r";
                            EvInfo [Lit "You are already subscribed!"]] /\
    writes (trace w2) = writes (trace w1) /\
    subscribers_json w2 = subscribers_json w1.
Proof.
  intros email w l Hv Hl w1 w2. subst w2 w1.
  destruct (Nat.eq_dec (occurrences email l) 0) as [Hz|Hnz].
  - rewrite (subscribe_new email w l Hv Hl Hz). cbn [fst snd].
    set (w1 := log _ (set_file _ _)).
    assert (Hl1 : stored_list (subscribers_json w1) = Some (l ++ [PyStr email]))
      by reflexivity.
    assert (Hocc1 : (0 < occurrences email (l ++ [PyStr email]))%nat)
      by (rewrite occurrences_snoc; lia).
    rewrite (subscribe_present email w1 _ Hv Hl1 Hocc1). cbn [fst snd].
    repeat split.
    + exists (l ++ [PyStr email]). rewrite occurrences_snoc, Hz.
      split; [exact Hl1|]. split; [reflexivity|]. intros _. reflexivity.
    + cbn [log trace]. rewrite <- app_assoc. reflexivity.
    + cbn [log trace]. rewrite !writes_app. cbn [writes]. rewrite !app_nil_r.
      reflexivity.
  - assert (Hocc : (0 < occurrences email l)%nat) by lia.
    rewrite (subscribe_present email w l Hv Hl Hocc). cbn [fst snd].
    set (w1 := log _ (log _ w)).
    assert (Hl1 : stored_list (subscribers_json w1) = Some l) by exact Hl.
    rewrite (subscribe_present email w1 l Hv Hl1 Hocc). cbn [fst snd].
    repeat split.
    + exists l. split; [exact Hl|]. split; lia.
    + cbn [log trace]. rewrite <- app_assoc. reflexivity.
    + cbn [log trace]. rewrite !writes_app. cbn [writes]. rewrite !app_nil_r.
      reflexivity.
Qed.

(** Without duplicates to begin with, pressing "Subscribe" never creates
    one: the stored list stays free of duplicated addresses. *)
Lemma subscribe_once_preserves (email other : string) (w : world) (l : list pyval) :
  valid_email email ->
  stored_list (subscribers_json w) = Some l ->
  (occurrences other l <= 1)%nat ->
  exists l1, stored_list (subscribers_json (snd (subscribe email w))) = Some l1 /\
             (occurrences other l1 <= 1)%nat.
Proof.
  intros Hv Hl Hle.
  destruct (Nat.eq_dec (occurrences email l) 0) as [Hz|Hnz].
  - rewrite (subscribe_new email w l Hv Hl Hz). cbn [snd].
    exists (l ++ [PyStr email]). split; [reflexivity|].
    unfold occurrences in *. rewrite filter_app, List.length_app. cbn.
    destruct (String.eqb_spec other email) as [->|Hne]; cbn; lia.
  - rewrite (subscribe_present email w l Hv Hl ltac:(lia)). cbn [snd].
    exists l. split; [exact Hl | exact Hle].
Qed.

(* ------------------------------------------------------------------ *)
(** ** Delivery *)

(** [send_email] in one step: the POST is made, then the body of the
    response goes through [response.json()] whatever the status is. *)
Lemma send_email_step (recipient : pyval) (subject html : string) (w : world) :
  send_email recipient subject html w =
    let p := mkPayload sender recipient subject html in
    let w' := count_post
                (log (EvPost email_url ("Bearer " ++ RESEND_API_KEY w)%string p) w) in
    match email_api w (posts w) p with
    | Ret r =>
        match response_json r with
        | Ret body => (Ret (status_code r =? 200, body), w')
        | Raise e => (Raise e, w')
        end
    | Raise e => (Raise e, w')
    end.
Proof.
  unfold send_email, bind, requests_post, lift, ret. cbv zeta.
  destruct (email_api w (posts w) _) as [r|e]; [|reflexivity].
  destruct (response_json r); reflexivity.
Qed.

(** When every answer of the e-mail API is a response with a JSON body,
    the loop of [send_daily_updates] goes through all recipients in list
    order, whatever the status codes are, and prints one line for each:
    a failed send (a status other than 200) is reported and the loop goes
    on. *)
Lemma send_loop_json_answers (subject html : string) (todo : list pyval) :
  forall w : world,
    (forall n p, exists r body, email_api w n p = Ret r /\ content r = Json body) ->
    fst (send_loop subject html todo w) = Ret tt /\
    recipients (trace (snd (send_loop subject html todo w))) =
      recipients (trace w) ++ todo /\
    prints (trace (snd (send_loop subject html todo w))) =
      prints (trace w) ++ reports (email_api w) (posts w) subject html todo /\
    posts (snd (send_loop subject html todo w)) = (posts w + List.length todo)%nat.
Proof.
  induction todo as [|email rest IH]; intros w Hjson.
  - cbn. rewrite !app_nil_r, Nat.add_0_r. repeat split.
  - destruct (Hjson (posts w) (mkPayload sender email subject html))
      as (r & body & Hr & Hbody).
    set (w2 := log (EvPrint (report email r body))
                 (count_post
                    (log (EvPost email_url ("Bearer " ++ RESEND_API_KEY w)%string
                            (mkPayload sender email subject html)) w))).
    assert (E : send_loop subject html (email :: rest) w =
                send_loop subject html rest w2).
    { cbn [send_loop]. unfold bind. rewrite send_email_step. cbv zeta.
      rewrite Hr. unfold response_json. rewrite Hbody. cbn [fst snd].
      unfold report in w2. subst w2.
      destruct (status_code r =? 200); reflexivity. }
    rewrite E. cbn [reports]. rewrite Hr, Hbody.
    destruct (IH w2) as (H1 & H2 & H3 & H4).
    { intros n p. apply (Hjson n p). }
    rewrite H1, H2, H3, H4. subst w2. cbn [log count_post trace posts email_api].
    rewrite !recipients_app, !prints_app. cbn [recipients prints p_to].
    rewrite !app_nil_r, <- !app_assoc. cbn [app List.length].
    repeat split. lia.
Qed.

(** C4 does not hold of the code.  With the subscribers [a@x.com] and
    [b@y.com] and an e-mail API whose answer to the first POST is a 502
    with an HTML body, [send_daily_updates] raises [JSONDecodeError]: no
    line is printed for [a@x.com] and [b@y.com] is never attempted. *)
Theorem send_daily_updates_bad_gateway :
  fst (send_daily_updates bad_gateway) = Raise JSONDecodeError /\
  recipients (trace (snd (send_daily_updates bad_gateway))) = [PyStr "a@x.com"] /\
  prints (trace (snd (send_daily_updates bad_gateway))) = [] /\
  posts (snd (send_daily_updates bad_gateway)) = 1%nat.
Proof. vm_compute. repeat split. Qed.

Example send_daily_updates_rejected_first :
  fst (send_daily_updates rejected_first) = Ret tt /\
  recipients (trace (snd (send_daily_updates rejected_first))) =
    [PyStr "a@x.com"; PyStr "b@y.com"] /\
  prints (trace (snd (send_daily_updates rejected_first))) =
    [[Lit "Failed to send email to "; Str (PyStr "a@x.com"); Lit ": ";
      Str (PyDict [("message", PyStr "invalid")])];
     [Lit "Email sent successfully to "; Str (PyStr "b@y.com")]].
Proof. vm_compute. repeat split. Qed.

(** C10.  [send_email] passes the body of every response through
    [response.json()] before it returns, whether the status is 200 or
    not; when the body is not JSON it raises [JSONDecodeError] and
    returns no (success, body) pair; inside the loop of
    [send_daily_updates] the exception ends the loop at that recipient,
    so that none of the remaining subscribers is attempted; and there is
    a run of [send_daily_updates] that ends this way. *)
Theorem send_email_json_unconditional :
  (forall recipient subject html w r,
      email_api w (posts w) (mkPayload sender recipient subject html) = Ret r ->
      fst (send_email recipient subject html w) =
        and_then (response_json r) (fun body => Ret (status_code r =? 200, body))) /\
  (forall recipient subject html w r raw,
      email_api w (posts w) (mkPayload sender recipient subject html) = Ret r ->
      content r = NotJson raw ->
      fst (send_email recipient subject html w) = Raise JSONDecodeError) /\
  (forall subject html email rest w r raw,
      email_api w (posts w) (mkPayload sender email subject html) = Ret r ->
      content r = NotJson raw ->
      fst (send_loop subject html (email :: rest) w) = Raise JSONDecodeError /\
      recipients (trace (snd (send_loop subject html (email :: rest) w))) =
        recipients (trace w) ++ [email] /\
      prints (trace (snd (send_loop subject html (email :: rest) w))) =
        prints (trace w)) /\
  (exists w,
      stored_list (subscribers_json w) = Some [PyStr "a@x.com"; PyStr "b@y.com"] /\
      fst (send_daily_updates w) = Raise JSONDecodeError /\
      recipients (trace (snd (send_daily_updates w))) = [PyStr "a@x.com"]).
Proof.
  split; [|split; [|split]].
  - intros recipient subject html w r Hr.
    rewrite send_email_step. cbv zeta. rewrite Hr.
    destruct (response_json r); reflexivity.
  - intros recipient subject html w r raw Hr Hraw.
    rewrite send_email_step. cbv zeta. rewrite Hr.
    unfold response_json. rewrite Hraw. reflexivity.
  - intros subject html email rest w r raw Hr Hraw.
    assert (E : send_loop subject html (email :: rest) w =
                (Raise JSONDecodeError,
                 count_post
                   (log (EvPost email_url ("Bearer " ++ RESEND_API_KEY w)%string
                           (mkPayload sender email subject html)) w))).
    { cbn [send_loop]. unfold bind. rewrite send_email_step. cbv zeta.
      rewrite Hr. unfold response_json. rewrite Hraw. reflexivity. }
    rewrite E. cbn [fst snd count_post log trace].
    rewrite recipients_app, prints_app. cbn [recipients prints p_to].
    rewrite app_nil_r. repeat split.
  - exists accepted_plain_text. vm_compute. repeat split.
Qed.

Lemma send_email_json_unconditional_witness :
  fst (send_email (PyStr "a@x.com") digest_subject "<p>digest</p>" bad_gateway) =
    Raise JSONDecodeError /\
  fst (send_loop digest_subject "<p>digest</p>"
         [PyStr "a@x.com"; PyStr "b@y.com"] accepted_plain_text) =
    Raise JSONDecodeError.
Proof.
  destruct send_email_json_unconditional as (_ & Hsend & Hloop & _).
  split.
  - apply (Hsend (PyStr "a@x.com") digest_subject "<p>digest</p>" bad_gateway
             (mkResponse 502 (NotJson "<html>502 Bad Gateway</html>"))
             "<html>502 Bad Gateway</html>"); reflexivity.
  - apply (Hloop digest_subject "<p>digest</p>" (PyStr "a@x.com") [PyStr "b@y.com"]
             accepted_plain_text (mkResponse 200 (NotJson "OK")) "OK"); reflexivity.
Defined.

(* ================================================================== *)
(** * Part IV: further properties of the program *)

(* ------------------------------------------------------------------ *)
(** ** More on [fetch_crypto_data] *)

Lemma posted_app (a b : list event) : posted (a ++ b) = posted a ++ posted b.
Proof.
  induction a as [|e a IH]; simpl; [reflexivity|].
  destruct e; simpl; rewrite IH; reflexivity.
Qed.

Lemma opened_app (a b : list event) : opened (a ++ b) = opened a ++ opened b.
Proof.
  induction a as [|e a IH]; simpl; [reflexivity|].
  destruct e; simpl; rewrite IH; reflexivity.
Qed.

Lemma after_gets_after_gets (g1 g2 : nat) (e1 e2 : list event) (w : world) :
  after_gets g2 e2 (after_gets g1 e1 w) = after_gets (g1 + g2) (e1 ++ e2) w.
Proof.
  unfold after_gets. cbn. f_equal; [lia | apply eq_sym, app_assoc].
Qed.

(** Events of the retry loop are no POSTs, no file accesses and no
    printed lines. *)
Lemma fetch_events_quiet (evs : list event) :
  forallb fetch_event evs = true ->
  posted evs = [] /\ recipients evs = [] /\ writes evs = [] /\
  opened evs = [] /\ prints evs = [].
Proof.
  induction evs as [|e evs IH]; [repeat split|].
  cbn [forallb]. intros H. apply andb_true_iff in H. destruct H as (He & Hevs).
  destruct e; try discriminate; cbn; apply IH; exact Hevs.
Qed.

Lemma time_sleep_cases (d : Z) :
  (exists e, time_sleep d = raise e) \/ time_sleep d = emit (EvSleep d).
Proof.
  unfold time_sleep.
  destruct ((d <? - max_sleep) || (max_sleep <? d)); [left; eexists; reflexivity|].
  destruct (d <? 0); [left; eexists; reflexivity | right; reflexivity].
Qed.

(** Whatever the price API does, [n] iterations of the loop change the
    world by at most [n] GETs and by events of the loop only, and the
    sleeps among them are the first [j] delays of the doubling sequence
    with [j] below [n]. *)
Lemma fetch_loop_effect (n : nat) :
  forall (attempt max_retries d : Z) (w : world),
    max_retries - attempt <= Z.of_nat n ->
    exists (g j : nat) (evs : list event),
      snd (fetch_loop n attempt max_retries d w) = after_gets g evs w /\
      (g <= n)%nat /\ (j <= pred n)%nat /\
      sleeps evs = doubling d j /\
      forallb fetch_event evs = true.
Proof.
  induction n as [|n IH]; intros attempt max_retries d w Hfuel.
  - exists 0%nat, 0%nat, []. cbn. rewrite after_gets_0. repeat split; lia.
  - cbn [fetch_loop]. unfold bind at 1. unfold requests_get at 1.
    set (w1 := count_get (log (EvGet price_url price_params) w)).
    assert (Hw1 : w1 = after_gets 1 [EvGet price_url price_params] w).
    { unfold w1, after_gets, count_get, log. cbn. f_equal. lia. }
    destruct (price_api w (gets w)) as [r|e].
    + destruct (status_code r =? 200).
      { exists 1%nat, 0%nat, [EvGet price_url price_params].
        unfold lift. cbn [snd]. rewrite Hw1. repeat split; lia. }
      destruct (status_code r =? 429).
      * destruct (Z.ltb_spec attempt (max_retries - 1)) as [Hlt|Hge].
        -- unfold bind at 1, st_warning, emit. unfold bind at 1.
           destruct (time_sleep_cases d) as [(e & ->) | ->].
           ++ exists 1%nat, 0%nat,
                [EvGet price_url price_params;
                 EvWarning [Lit "Rate limit hit. Retrying in "; Str (PyInt d);
                            Lit " seconds..."]].
              unfold raise. cbn [snd]. rewrite Hw1.
              unfold after_gets, log. cbn. rewrite <- app_assoc.
              repeat split; lia.
           ++ unfold emit.
              set (w3 := log (EvSleep d) (log _ w1)).
              destruct (IH (attempt + 1) max_retries (d * 2) w3 ltac:(lia))
                as (g & j & evs & E & Hg & Hj & Hs & Hq).
              exists (S g), (S j), (backoff_round d ++ evs).
              rewrite E. unfold w3. rewrite Hw1.
              split.
              { unfold after_gets, log, backoff_round. cbn. f_equal; [lia|].
                rewrite <- !app_assoc. reflexivity. }
              repeat split; try lia.
              ** rewrite sleeps_app, Hs, doubling_S. reflexivity.
              ** cbn. exact Hq.
        -- unfold bind at 1, st_error, emit.
           set (w2 := log _ w1).
           destruct (IH (attempt + 1) max_retries d w2 ltac:(lia))
             as (g & j & evs & E & Hg & Hj & Hs & Hq).
           exists (S g), j,
             ([EvGet price_url price_params;
               EvError [Lit "Rate limit exceeded. Please try again later."]] ++ evs).
           rewrite E. unfold w2. rewrite Hw1.
           split.
           { unfold after_gets, log. cbn. f_equal; [lia|].
             rewrite <- !app_assoc. reflexivity. }
           repeat split; try lia.
           ++ rewrite sleeps_app, Hs. reflexivity.
           ++ cbn. exact Hq.
      * exists 1%nat, 0%nat,
          [EvGet price_url price_params;
           EvError [Lit "Error fetching data: "; Str (PyInt (status_code r))]].
        unfold bind, st_error, emit, ret. cbn [snd]. rewrite Hw1.
        unfold after_gets, log. cbn. rewrite <- app_assoc.
        repeat split; lia.
    + exists 1%nat, 0%nat, [EvGet price_url price_params].
      cbn [snd]. rewrite Hw1. repeat split; lia.
Qed.

Lemma fetch_crypto_data_effect (max_retries d : Z) (w : world) :
  exists (g j : nat) (evs : list event),
    snd (fetch_crypto_data max_retries d w) = after_gets g evs w /\
    (g <= Z.to_nat max_retries)%nat /\ (j <= pred (Z.to_nat max_retries))%nat /\
    sleeps evs = doubling d j /\
    forallb fetch_event evs = true.
Proof.
  unfold fetch_crypto_data. apply fetch_loop_effect. lia.
Qed.

(** X1.  Whatever the price API answers (any statuses, any bodies,
    transport errors), [fetch_crypto_data max_retries d] makes at most
    [max_retries] requests (none when [max_retries <= 0]) and its sleeps
    are the first [j] delays [d, 2d, 4d, ...] for some
    [j <= max_retries - 1]. *)
Theorem fetch_crypto_data_bounded :
  forall (max_retries d : Z) (w : world),
    let w' := snd (fetch_crypto_data max_retries d w) in
    (gets w <= gets w' <= gets w + Z.to_nat max_retries)%nat /\
    exists j : nat,
      (j <= pred (Z.to_nat max_retries))%nat /\
      sleeps (trace w') =
        sleeps (trace w) ++ map (fun i => d * 2 ^ Z.of_nat i) (seq 0 j).
Proof.
  intros max_retries d w w'. subst w'.
  destruct (fetch_crypto_data_effect max_retries d w)
    as (g & j & evs & E & Hg & Hj & Hs & _).
  rewrite E. unfold after_gets. cbn [gets trace]. split; [lia|].
  exists j. split; [exact Hj|]. rewrite sleeps_app, Hs. reflexivity.
Qed.

(** X2.  Whatever the price API answers, [fetch_crypto_data] sends no
    e-mail, does not touch the subscriber file, does not read the clock
    and prints nothing: the events it adds to the trace are GETs, sleeps
    and warning or error banners and nothing else, and besides the trace
    and the GET counter the world is as before. *)
Theorem fetch_crypto_data_only_fetches :
  forall (max_retries d : Z) (w : world),
    let w' := snd (fetch_crypto_data max_retries d w) in
    (exists evs, trace w' = trace w ++ evs /\ forallb fetch_event evs = true) /\
    RESEND_API_KEY w' = RESEND_API_KEY w /\
    price_api w' = price_api w /\
    email_api w' = email_api w /\
    clock w' = clock w /\
    posts w' = posts w /\
    ticks w' = ticks w /\
    subscribers_json w' = subscribers_json w /\
    posted (trace w') = posted (trace w) /\
    opened (trace w') = opened (trace w) /\
    writes (trace w') = writes (trace w) /\
    prints (trace w') = prints (trace w).
Proof.
  intros max_retries d w w'. subst w'.
  destruct (fetch_crypto_data_effect max_retries d w)
    as (g & j & evs & E & _ & _ & _ & Hq).
  destruct (fetch_events_quiet evs Hq) as (Hp & _ & Hw & Ho & Hpr).
  rewrite E. unfold after_gets.
  cbn [posts ticks subscribers_json trace RESEND_API_KEY price_api email_api clock].
  rewrite posted_app, opened_app, writes_app, prints_app, Hp, Hw, Ho, Hpr.
  rewrite !app_nil_r.
  split; [exists evs; split; [reflexivity | exact Hq]|]. repeat split.
Qed.








(* ------------------------------------------------------------------ *)
(** ** More on [create_email_content] *)

Lemma append_assoc (a b c : string) :
  ((a ++ b) ++ c)%string = (a ++ (b ++ c))%string.
Proof.
  induction a as [|ch a IH]; cbn; [reflexivity|]. rewrite IH. reflexivity.
Qed.

Lemma prefix_app_self (a b : string) : String.prefix a (a ++ b) = true.
Proof.
  induction a as [|ch a IH]; cbn; [destruct b; reflexivity|].
  destruct (ascii_dec ch ch) as [_|Hne]; [exact IH | contradiction].
Qed.

Lemma contains_unfold (needle hay : string) :
  contains needle hay =
    (String.prefix needle hay ||
     match hay with
     | EmptyString => false
     | String _ rest => contains needle rest
     end).
Proof. destruct hay; reflexivity. Qed.

(** A string contains each of its substrings. *)
Lemma contains_intro (pre needle post : string) :
  contains needle (pre ++ (needle ++ post)) = true.
Proof.
  induction pre as [|ch pre IH].
  - cbn [append]. rewrite contains_unfold, prefix_app_self. reflexivity.
  - cbn [append]. rewrite contains_unfold, IH. apply orb_true_r.
Qed.

Lemma py_format_is_number (grouping : bool) (v : pyval) :
  (exists s, py_format grouping v = Ret s) <-> is_number v = true.
Proof.
  unfold py_format, is_number. destruct v.
  - split; [intros (s & H); discriminate | discriminate].
  - split; [reflexivity | eexists; reflexivity].
  - destruct (float_of_int z).
    + split; [reflexivity | eexists; reflexivity].
    + split; [intros (s & H); discriminate | discriminate].
  - split; [reflexivity | eexists; reflexivity].
  - split; [intros (s0 & H); discriminate | discriminate].
  - split; [intros (s & H); discriminate | discriminate].
  - split; [intros (s & H); discriminate | discriminate].
Qed.

(** [create_email_content] in terms of the four fields it reads. *)
Lemma create_email_content_fields (snapshot : pyval) (w : world) :
  fst (create_email_content snapshot w) =
    and_then (field snapshot "bitcoin" "usd") (fun bp =>
    and_then (field snapshot "bitcoin" "usd_24h_change") (fun bc =>
    and_then (field snapshot "ethereum" "usd") (fun ep =>
    and_then (field snapshot "ethereum" "usd_24h_change") (fun ec =>
    html_template (today w) bp bc ep ec)))).
Proof.
  destruct (create_email_content_render snapshot w) as (E & _). rewrite E.
  unfold render, field.
  destruct (subscript snapshot "bitcoin") as [bitcoin|e]; cbn [and_then];
    [|reflexivity].
  destruct (subscript bitcoin "usd") as [bp|e]; cbn [and_then]; [|reflexivity].
  destruct (subscript bitcoin "usd_24h_change") as [bc|e]; cbn [and_then];
    [|reflexivity].
  destruct (subscript snapshot "ethereum") as [ethereum|e]; cbn [and_then];
    [|reflexivity].
  destruct (subscript ethereum "usd") as [ep|e]; cbn [and_then]; [|reflexivity].
  destruct (subscript ethereum "usd_24h_change") as [ec|e]; cbn [and_then];
    [|reflexivity].
  destruct (html_template (today w) bp bc ep ec); reflexivity.
Qed.

Lemma html_template_formats (date : string) (bp bc ep ec : pyval)
      (sbp sbc sep sec : string) :
  py_format true bp = Ret sbp -> py_format false bc = Ret sbc ->
  py_format true ep = Ret sep -> py_format false ec = Ret sec ->
  html_template date bp bc ep ec =
    Ret (nl ++ "    <h2>Daily Cryptocurrency Update</h2>"
      ++ nl ++ "    <p>Date: " ++ date ++ "</p>"
      ++ nl ++ "    <h3>Bitcoin (BTC)</h3>"
      ++ nl ++ "    <p>Current Price: $" ++ sbp ++ "</p>"
      ++ nl ++ "    <p>24h Change: " ++ sbc ++ "%</p>"
      ++ nl ++ "    <h3>Ethereum (ETH)</h3>"
      ++ nl ++ "    <p>Current Price: $" ++ sep ++ "</p>"
      ++ nl ++ "    <p>24h Change: " ++ sec ++ "%</p>"
      ++ nl ++ "    ")%string.
Proof.
  intros H1 H2 H3 H4. unfold html_template. rewrite H1, H2, H3, H4. reflexivity.
Qed.

(** X6.  [create_email_content] returns a body exactly when the snapshot
    has the four fields [bitcoin.usd], [bitcoin.usd_24h_change],
    [ethereum.usd] and [ethereum.usd_24h_change] and each of them is a
    number (a float, a boolean or an integer within the range of a
    float); in every other case it raises. *)
Theorem create_email_content_succeeds_iff :
  forall (snapshot : pyval) (w : world),
    (exists body, fst (create_email_content snapshot w) = Ret body) <->
    (exists bp bc ep ec,
        field snapshot "bitcoin" "usd" = Ret bp /\
        field snapshot "bitcoin" "usd_24h_change" = Ret bc /\
        field snapshot "ethereum" "usd" = Ret ep /\
        field snapshot "ethereum" "usd_24h_change" = Ret ec /\
        is_number bp = true /\ is_number bc = true /\
        is_number ep = true /\ is_number ec = true).
Proof.
  intros snapshot w. rewrite create_email_content_fields. split.
  - intros (body & H).
    destruct (field snapshot "bitcoin" "usd") as [bp|e]; [|discriminate].
    destruct (field snapshot "bitcoin" "usd_24h_change") as [bc|e]; [|discriminate].
    destruct (field snapshot "ethereum" "usd") as [ep|e]; [|discriminate].
    destruct (field snapshot "ethereum" "usd_24h_change") as [ec|e]; [|discriminate].
    cbn [and_then] in H. unfold html_template in H.
    exists bp, bc, ep, ec.
    split; [reflexivity|]. split; [reflexivity|].
    split; [reflexivity|]. split; [reflexivity|].
    split; [apply (py_format_is_number true)|].
    2: split; [apply (py_format_is_number false)|].
    3: split; [apply (py_format_is_number true) | apply (py_format_is_number false)].
    + destruct (py_format true bp) as [s|]; [eexists; reflexivity | discriminate].
    + destruct (py_format true bp); [|discriminate].
      destruct (py_format false bc); [eexists; reflexivity | discriminate].
    + destruct (py_format true bp); [|discriminate].
      destruct (py_format false bc); [|discriminate].
      destruct (py_format true ep); [eexists; reflexivity | discriminate].
    + destruct (py_format true bp); [|discriminate].
      destruct (py_format false bc); [|discriminate].
      destruct (py_format true ep); [|discriminate].
      destruct (py_format false ec); [eexists; reflexivity | discriminate].
  - intros (bp & bc & ep & ec & -> & -> & -> & -> & N1 & N2 & N3 & N4).
    cbn [and_then].
    apply (py_format_is_number true) in N1. destruct N1 as (sbp & N1).
    apply (py_format_is_number false) in N2. destruct N2 as (sbc & N2).
    apply (py_format_is_number true) in N3. destruct N3 as (sep & N3).
    apply (py_format_is_number false) in N4. destruct N4 as (sec & N4).
    rewrite (html_template_formats _ _ _ _ _ _ _ _ _ N1 N2 N3 N4).
    eexists. reflexivity.
Qed.

(** X7.  When the answer of the price API lacks one of the two assets
    ("bitcoin" is missing, or "bitcoin" is complete and "ethereum" is
    missing), [create_email_content] raises [KeyError] before it reads
    the clock: no digest is produced and the world is left as it was. *)
Theorem create_email_content_missing_asset :
  forall (items : list (string * pyval)) (w : world),
    (lookup "bitcoin" items = None \/
     exists b bp bc,
       lookup "bitcoin" items = Some (PyDict b) /\
       lookup "usd" b = Some bp /\
       lookup "usd_24h_change" b = Some bc /\
       lookup "ethereum" items = None) ->
    create_email_content (PyDict items) w = (Raise KeyError, w).
Proof.
  intros items w [H | (b & bp & bc & Hb & Hbp & Hbc & He)];
    unfold create_email_content, bind, lift, subscript.
  - rewrite H. reflexivity.
  - rewrite Hb, Hbp, Hbc, He. reflexivity.
Qed.

Lemma create_email_content_missing_asset_witness :
  create_email_content snapshot_bitcoin_only world0 = (Raise KeyError, world0).
Proof.
  apply (create_email_content_missing_asset
           [("bitcoin", PyDict [("usd", PyInt 65000); ("usd_24h_change", PyInt 1)])]
           world0).
  right. exists [("usd", PyInt 65000); ("usd_24h_change", PyInt 1)], (PyInt 65000), (PyInt 1).
  repeat split.
Defined.

Lemma contains_split (needle pre post hay : string) :
  hay = (pre ++ (needle ++ post))%string -> contains needle hay = true.
Proof. intros ->. apply contains_intro. Qed.

(** X8.  For every snapshot whose four fields are numbers, the body
    carries the local date of the moment it is built and, under the
    heading of each asset, its price formatted with [,.2f] after a dollar
    sign and its change formatted with [.2f] before a percent sign. *)
Theorem create_email_content_body :
  forall (snapshot : pyval) (w : world) (bp bc ep ec : pyval)
         (sbp sbc sep sec : string),
    field snapshot "bitcoin" "usd" = Ret bp ->
    field snapshot "bitcoin" "usd_24h_change" = Ret bc ->
    field snapshot "ethereum" "usd" = Ret ep ->
    field snapshot "ethereum" "usd_24h_change" = Ret ec ->
    py_format true bp = Ret sbp ->
    py_format false bc = Ret sbc ->
    py_format true ep = Ret sep ->
    py_format false ec = Ret sec ->
    exists body,
      fst (create_email_content snapshot w) = Ret body /\
      contains ("<p>Date: " ++ today w ++ "</p>") body = true /\
      contains ("<h3>Bitcoin (BTC)</h3>" ++ nl
                ++ "    <p>Current Price: $" ++ sbp ++ "</p>" ++ nl
                ++ "    <p>24h Change: " ++ sbc ++ "%</p>") body = true /\
      contains ("<h3>Ethereum (ETH)</h3>" ++ nl
                ++ "    <p>Current Price: $" ++ sep ++ "</p>" ++ nl
                ++ "    <p>24h Change: " ++ sec ++ "%</p>") body = true.
Proof.
  intros snapshot w bp bc ep ec sbp sbc sep sec F1 F2 F3 F4 P1 P2 P3 P4.
  rewrite create_email_content_fields, F1, F2, F3, F4. cbn [and_then].
  rewrite (html_template_formats _ _ _ _ _ _ _ _ _ P1 P2 P3 P4).
  eexists. split; [reflexivity|]. split; [|split].
  - apply (contains_split _
             (nl ++ "    <h2>Daily Cryptocurrency Update</h2>" ++ nl ++ "    ")
             (nl ++ "    <h3>Bitcoin (BTC)</h3>"
              ++ nl ++ "    <p>Current Price: $" ++ sbp ++ "</p>"
              ++ nl ++ "    <p>24h Change: " ++ sbc ++ "%</p>"
              ++ nl ++ "    <h3>Ethereum (ETH)</h3>"
              ++ nl ++ "    <p>Current Price: $" ++ sep ++ "</p>"
              ++ nl ++ "    <p>24h Change: " ++ sec ++ "%</p>"
              ++ nl ++ "    ")).
    rewrite ?append_assoc. reflexivity.
  - apply (contains_split _
             (nl ++ "    <h2>Daily Cryptocurrency Update</h2>"
              ++ nl ++ "    <p>Date: " ++ today w ++ "</p>" ++ nl ++ "    ")
             (nl ++ "    <h3>Ethereum (ETH)</h3>"
              ++ nl ++ "    <p>Current Price: $" ++ sep ++ "</p>"
              ++ nl ++ "    <p>24h Change: " ++ sec ++ "%</p>"
              ++ nl ++ "    ")).
    rewrite ?append_assoc. cbn [append nl]. rewrite ?append_assoc. reflexivity.
  - apply (contains_split _
             (nl ++ "    <h2>Daily Cryptocurrency Update</h2>"
              ++ nl ++ "    <p>Date: " ++ today w ++ "</p>"
              ++ nl ++ "    <h3>Bitcoin (BTC)</h3>"
              ++ nl ++ "    <p>Current Price: $" ++ sbp ++ "</p>"
              ++ nl ++ "    <p>24h Change: " ++ sbc ++ "%</p>"
              ++ nl ++ "    ")
             (nl ++ "    ")).
    rewrite ?append_assoc. cbn [append nl]. rewrite ?append_assoc. reflexivity.
Qed.

Lemma create_email_content_body_witness :
  exists body,
    fst (create_email_content snapshot_small morning) = Ret body /\
    contains "<p>Date: 2024-01-15</p>" body = true.
Proof.
  destruct (create_email_content_body snapshot_small morning
              (PyInt 65000) (PyInt 1) (PyInt 3200) (PyInt 2)
              "65,000.00" "1.00" "3,200.00" "2.00")
    as (body & Hbody & Hdate & _);
    try reflexivity.
  exists body. split; [exact Hbody | exact Hdate].
Defined.

(* ------------------------------------------------------------------ *)
(** ** More on the subscription form *)

(** One press of "Subscribe" on a stored list: it returns, and the
    stored list changes as [subscribed] says. *)
Lemma subscribe_stored (email : string) (w : world) (l : list pyval) :
  stored_list (subscribers_json w) = Some l ->
  fst (subscribe email w) = Ret tt /\
  stored_list (subscribers_json (snd (subscribe email w))) =
    Some (subscribed email l).
Proof.
  intros Hl. unfold subscribed.
  destruct (contains "@" email) eqn:Hv.
  - rewrite existsb_occurrences.
    destruct (Nat.eqb_spec (occurrences email l) 0) as [Hz|Hnz]; cbn [negb andb].
    + rewrite (subscribe_new email w l Hv Hl Hz). split; reflexivity.
    + rewrite (subscribe_present email w l Hv Hl ltac:(lia)). split; [reflexivity|].
      exact Hl.
  - unfold subscribe. rewrite Hv, orb_true_r. cbn [andb]. split; [reflexivity|].
    exact Hl.
Qed.

Lemma subscribe_each_stored (emails : list string) :
  forall (w : world) (l : list pyval),
    stored_list (subscribers_json w) = Some l ->
    fst (subscribe_each emails w) = Ret tt /\
    stored_list (subscribers_json (snd (subscribe_each emails w))) =
      Some (fold_left (fun acc email => subscribed email acc) emails l).
Proof.
  induction emails as [|email rest IH]; intros w l Hl.
  - split; [reflexivity | exact Hl].
  - cbn [subscribe_each fold_left]. unfold bind.
    destruct (subscribe_stored email w l Hl) as (Hr & Hs).
    destruct (subscribe email w) as [r w1]. cbn [fst snd] in Hr, Hs. subst r.
    apply IH. exact Hs.
Qed.

Lemma str_eq_false_not_in (email : string) (l : list pyval) :
  existsb (str_eq email) l = false -> ~ In (PyStr email) l.
Proof.
  intros H Hin.
  assert (Ht : existsb (str_eq email) l = true).
  { apply existsb_exists. exists (PyStr email). split; [exact Hin|].
    cbn. apply String.eqb_refl. }
  congruence.
Qed.

Lemma subscribed_NoDup (email : string) (l : list pyval) :
  NoDup l -> NoDup (subscribed email l).
Proof.
  intros Hnd. unfold subscribed.
  destruct (contains "@" email); cbn [andb]; [|exact Hnd].
  destruct (existsb (str_eq email) l) eqn:Hex; cbn [negb]; [exact Hnd|].
  apply NoDup_app; [exact Hnd | constructor; [intros []|constructor] |].
  intros x Hx [<-|[]]. exact (str_eq_false_not_in _ _ Hex Hx).
Qed.

(** X9.  A valid address that is not in the stored list yet is added at
    its end: the entries already stored stay where they are, the file is
    read once and written once with the longer list, and the success
    message is shown.  (The stored list is the JSON list in the file, or
    the empty list when the file is absent or rejected by the decoder
    with [JSONDecodeError]; a file on which [load_subscribers] raises has
    none.) *)
Theorem subscribe_appends :
  forall (email : string) (w : world) (l : list pyval),
    valid_email email ->
    stored_list (subscribers_json w) = Some l ->
    existsb (str_eq email) l = false ->
    let w' := snd (subscribe email w) in
    fst (subscribe email w) = Ret tt /\
    subscribers_json w' = Some (Json (PyList (l ++ [PyStr email]))) /\
    trace w' =
      trace w ++
      [EvOpen subscribers_path "r";
       EvOpen subscribers_path "w";
       EvWrite subscribers_path (PyList (l ++ [PyStr email]));
       EvSuccess [Lit "Successfully subscribed to daily cryptocurrency updates!"]].
Proof.
  intros email w l Hv Hl Hex w'. subst w'.
  assert (Hz : occurrences email l = 0%nat).
  { rewrite existsb_occurrences in Hex.
    destruct (Nat.eqb_spec (occurrences email l) 0); [assumption|discriminate]. }
  rewrite (subscribe_new email w l Hv Hl Hz). cbn [fst snd].
  split; [reflexivity|]. split; [reflexivity|].
  cbn [log set_file trace]. rewrite <- !app_assoc. reflexivity.
Qed.

Lemma subscribe_appends_witness :
  subscribers_json (snd (subscribe "c@z.com" (with_file two_subscribers world0))) =
    Some (Json (PyList [PyStr "a@x.com"; PyStr "b@y.com"; PyStr "c@z.com"])).
Proof.
  apply (subscribe_appends "c@z.com" (with_file two_subscribers world0)
           [PyStr "a@x.com"; PyStr "b@y.com"]); reflexivity.
Defined.

(** X10.  A stored list without repeated entries stays without repeated
    entries under any sequence of presses of "Subscribe", whatever is
    typed into the field (valid or not, new or known); none of the
    presses raises.  In particular the list built from a file that is
    absent, or that the decoder rejects with [JSONDecodeError], never
    holds an address twice.  (A file on which [load_subscribers] raises
    has no stored list.) *)
Theorem subscribe_each_NoDup :
  forall (emails : list string) (w : world) (l : list pyval),
    stored_list (subscribers_json w) = Some l ->
    NoDup l ->
    fst (subscribe_each emails w) = Ret tt /\
    exists l', stored_list (subscribers_json (snd (subscribe_each emails w))) = Some l' /\
               NoDup l'.
Proof.
  intros emails w l Hl Hnd.
  destruct (subscribe_each_stored emails w l Hl) as (Hr & Hs).
  split; [exact Hr|]. eexists. split; [exact Hs|].
  clear Hs Hr Hl w. revert l Hnd.
  induction emails as [|email rest IH]; intros l Hnd; [exact Hnd|].
  cbn [fold_left]. apply IH. apply subscribed_NoDup. exact Hnd.
Qed.

Lemma subscribe_each_NoDup_witness :
  exists l',
    stored_list (subscribers_json
                   (snd (subscribe_each ["a@x.com"; "nobody"; "b@y.com"; "a@x.com"]
                           world0))) = Some l' /\
    NoDup l'.
Proof.
  apply (subscribe_each_NoDup ["a@x.com"; "nobody"; "b@y.com"; "a@x.com"] world0 []).
  - reflexivity.
  - constructor.
Defined.

(** X11.  Pressing "Subscribe" never removes or moves a stored entry and
    never stores anything but what was typed: after any sequence of
    presses the stored list is the old list followed by addresses that
    were typed and contain "@", and every typed address that contains
    "@" is in the stored list.  (The old list is the JSON list in the
    file, or the empty list when the file is absent or rejected by the
    decoder with [JSONDecodeError].) *)
Theorem subscribe_each_extends :
  forall (emails : list string) (w : world) (l : list pyval),
    stored_list (subscribers_json w) = Some l ->
    exists added,
      stored_list (subscribers_json (snd (subscribe_each emails w))) =
        Some (l ++ map PyStr added) /\
      (forall e, In e added -> In e emails /\ valid_email e) /\
      (forall e, In e emails -> valid_email e -> In (PyStr e) (l ++ map PyStr added)).
Proof.
  intros emails w l Hl.
  destruct (subscribe_each_stored emails w l Hl) as (_ & Hs). rewrite Hs.
  clear Hs Hl w. revert l.
  induction emails as [|email rest IH]; intros l.
  - exists []. cbn. rewrite app_nil_r. split; [reflexivity|]. split; intros e [].
  - cbn [fold_left]. unfold subscribed at 2.
    destruct (contains "@" email) eqn:Hv; cbn [andb].
    + destruct (existsb (str_eq email) l) eqn:Hex; cbn [negb].
      * destruct (IH l) as (added & E & Hin & Hall).
        exists added. split; [exact E|]. split.
        -- intros e He. destruct (Hin e He). split; [right|]; assumption.
        -- intros e [<-|He] Hve; [|apply Hall; assumption].
           apply in_or_app. left.
           apply existsb_exists in Hex. destruct Hex as (x & Hx & Hxe).
           destruct x; try discriminate. cbn in Hxe.
           apply String.eqb_eq in Hxe. subst. exact Hx.
      * destruct (IH (l ++ [PyStr email])) as (added & E & Hin & Hall).
        exists (email :: added). split.
        { rewrite E. cbn [map]. rewrite <- app_assoc. reflexivity. }
        split.
        -- intros e [<-|He]; [split; [left; reflexivity | exact Hv]|].
           destruct (Hin e He). split; [right|]; assumption.
        -- intros e [<-|He] Hve.
           ++ apply in_or_app. right. left. reflexivity.
           ++ specialize (Hall e He Hve). rewrite <- app_assoc in Hall. exact Hall.
    + destruct (IH l) as (added & E & Hin & Hall).
      exists added. split; [exact E|]. split.
      * intros e He. destruct (Hin e He). split; [right|]; assumption.
      * intros e [<-|He] Hve; [unfold valid_email in Hve; congruence|].
        apply Hall; assumption.
Qed.

Lemma subscribe_each_extends_witness :
  stored_list (subscribers_json
                 (snd (subscribe_each ["c@z.com"; "nobody"; "a@x.com"]
                         (with_file two_subscribers world0)))) =
    Some [PyStr "a@x.com"; PyStr "b@y.com"; PyStr "c@z.com"] /\
  exists added,
    stored_list (subscribers_json
                   (snd (subscribe_each ["c@z.com"; "nobody"; "a@x.com"]
                           (with_file two_subscribers world0)))) =
      Some ([PyStr "a@x.com"; PyStr "b@y.com"] ++ map PyStr added).
Proof.
  split; [reflexivity|].
  destruct (subscribe_each_extends ["c@z.com"; "nobody"; "a@x.com"]
              (with_file two_subscribers world0)
              [PyStr "a@x.com"; PyStr "b@y.com"] eq_refl)
    as (added & E & _).
  exists added. exact E.
Defined.

(** X12.  A subscriber file that holds JSON other than a list is never
    overwritten by the form.  For a valid address the press raises
    [TypeError] when the file holds [null], a boolean or a number (the
    membership test fails), and when it holds an object or a string it
    reports "already subscribed" if the address is a key of the object or
    a part of the string and raises [AttributeError] otherwise (there is
    no [append]).  In each case the file was only opened for reading,
    keeps its contents, and nothing is written. *)
Theorem subscribe_not_a_list :
  forall (email : string) (w : world) (v : pyval),
    valid_email email ->
    subscribers_json w = Some (Json v) ->
    stored_list (subscribers_json w) = None ->
    let w' := snd (subscribe email w) in
    fst (subscribe email w) =
      match v with
      | PyNone | PyBool _ | PyInt _ | PyFloat _ => Raise TypeError
      | PyStr s => if contains email s then Ret tt else Raise AttributeError
      | PyDict items =>
          if existsb (fun kv => String.eqb email (fst kv)) items
          then Ret tt else Raise AttributeError
      | PyList _ => Ret tt
      end /\
    trace w' =
      trace w ++ EvOpen subscribers_path "r" ::
      match fst (subscribe email w) with
      | Ret _ => [EvInfo [Lit "You are already subscribed!"]]
      | Raise _ => []
      end /\
    subscribers_json w' = Some (Json v) /\
    writes (trace w') = writes (trace w).
Proof.
  intros email w v Hv Hfile Hnone w'. subst w'.
  unfold subscribe. rewrite (valid_email_nonempty _ Hv), Hv. cbn [negb orb].
  unfold bind, load_subscribers. rewrite Hfile in *.
  cbn [read_subscribers json_load]. unfold lift, py_in, py_append.
  destruct v; cbn in Hnone; try discriminate; cbn [fst snd].
  - cbn. rewrite writes_app, app_nil_r, Hfile. repeat split.
  - cbn. rewrite writes_app, app_nil_r, Hfile. repeat split.
  - cbn. rewrite writes_app, app_nil_r, Hfile. repeat split.
  - cbn. rewrite writes_app, app_nil_r, Hfile. repeat split.
  - destruct (contains email s); cbn; rewrite ?writes_app; cbn [writes];
      rewrite ?app_nil_r, <- ?app_assoc, Hfile; repeat split.
  - destruct (existsb _ items); cbn; rewrite ?writes_app; cbn [writes];
      rewrite ?app_nil_r, <- ?app_assoc, Hfile; repeat split.
Qed.

Lemma subscribe_not_a_list_witness :
  fst (subscribe "a@x.com" object_file) = Raise AttributeError /\
  subscribers_json (snd (subscribe "a@x.com" object_file)) =
    subscribers_json object_file.
Proof.
  destruct (subscribe_not_a_list "a@x.com" object_file
              (PyDict [("subscribers", PyList [])]) eq_refl eq_refl eq_refl)
    as (H1 & _ & H3 & _).
  split; [exact H1 | exact H3].
Defined.

(* ------------------------------------------------------------------ *)
(** ** More on [send_daily_updates] *)

Lemma runs_refl (w : world) : runs w w [].
Proof. unfold runs. rewrite app_nil_r. repeat split. Qed.

Lemma runs_trans (w1 w2 w3 : world) (e1 e2 : list event) :
  runs w1 w2 e1 -> runs w2 w3 e2 -> runs w1 w3 (e1 ++ e2).
Proof.
  unfold runs. intros (A1 & A2 & A3 & A4 & A5 & A6) (B1 & B2 & B3 & B4 & B5 & B6).
  rewrite B1, B2, B3, B4, B5, B6, A1, A2, A3, A4, A5, A6, app_assoc.
  repeat split.
Qed.

Lemma runs_after_gets (g : nat) (evs : list event) (w : world) :
  runs w (after_gets g evs w) evs.
Proof. unfold runs. repeat split. Qed.

Lemma runs_after_posts (k : nat) (evs : list event) (w : world) :
  runs w (after_posts k evs w) evs.
Proof. unfold runs. repeat split. Qed.

Lemma runs_log (e : event) (w : world) : runs w (log e w) [e].
Proof. unfold runs. repeat split. Qed.

Lemma after_posts_0 (w : world) : after_posts 0 [] w = w.
Proof.
  destruct w. unfold after_posts. cbn. rewrite Nat.add_0_r, app_nil_r. reflexivity.
Qed.

(** Whatever the e-mail API does, the loop over the recipients POSTs to
    a first part of the list, in list order and with one and the same
    subject and body, to all of the list when it ends without an
    exception, and it neither sleeps nor touches the subscriber file. *)
Lemma send_loop_effect (subject html : string) (todo : list pyval) :
  forall w : world,
    exists (k : nat) (evs : list event),
      snd (send_loop subject html todo w) = after_posts k evs w /\
      (k <= List.length todo)%nat /\
      posted evs = map (post_to w subject html) (firstn k todo) /\
      writes evs = [] /\ opened evs = [] /\ sleeps evs = [] /\
      (fst (send_loop subject html todo w) = Ret tt -> k = List.length todo).
Proof.
  induction todo as [|email rest IH]; intros w.
  - exists 0%nat, []. cbn. rewrite after_posts_0. repeat split. lia.
  - set (w1 := count_post
                  (log (EvPost email_url ("Bearer " ++ RESEND_API_KEY w)%string
                          (mkPayload sender email subject html)) w)).
    assert (Hw1 : w1 = after_posts 1
                         [EvPost email_url ("Bearer " ++ RESEND_API_KEY w)%string
                                 (mkPayload sender email subject html)] w).
    { unfold w1, after_posts, count_post, log. cbn. f_equal. lia. }
    destruct (email_api w (posts w) (mkPayload sender email subject html))
      as [r|e] eqn:Hapi.
    + destruct (content r) as [body|raw|raw e'] eqn:Hc.
      * set (line := if status_code r =? 200
                     then [Lit "Email sent successfully to "; Str email]
                     else [Lit "Failed to send email to "; Str email; Lit ": ";
                           Str body]).
        assert (E0 : send_loop subject html (email :: rest) w =
                     send_loop subject html rest (log (EvPrint line) w1)).
        { cbn [send_loop]. unfold bind. rewrite send_email_step. cbv zeta.
          rewrite Hapi. unfold response_json. rewrite Hc. cbn [fst snd].
          unfold line, w1. destruct (status_code r =? 200); reflexivity. }
        rewrite E0.
        destruct (IH (log (EvPrint line) w1))
          as (k & evs & E & Hk & Hp & Hw & Ho & Hs & Hall).
        exists (S k),
          ([EvPost email_url ("Bearer " ++ RESEND_API_KEY w)%string
                   (mkPayload sender email subject html); EvPrint line] ++ evs).
        rewrite E, Hw1. split.
        { unfold after_posts, log. cbn. f_equal; [lia|].
          rewrite <- !app_assoc. reflexivity. }
        split; [cbn; lia|]. split.
        { cbn [app posted firstn map]. rewrite Hp. reflexivity. }
        cbn [app writes opened sleeps].
        repeat split; try assumption.
        intros Hret. cbn [List.length]. f_equal. rewrite Hw1 in Hall.
        apply Hall. exact Hret.
      * assert (E0 : send_loop subject html (email :: rest) w =
                     (Raise JSONDecodeError, w1)).
        { cbn [send_loop]. unfold bind. rewrite send_email_step. cbv zeta.
          rewrite Hapi. unfold response_json. rewrite Hc. reflexivity. }
        rewrite E0.
        exists 1%nat,
          [EvPost email_url ("Bearer " ++ RESEND_API_KEY w)%string
                  (mkPayload sender email subject html)].
        cbn [fst snd]. rewrite Hw1. repeat split; cbn; try lia. discriminate.
      * assert (E0 : send_loop subject html (email :: rest) w = (Raise e', w1)).
        { cbn [send_loop]. unfold bind. rewrite send_email_step. cbv zeta.
          rewrite Hapi. unfold response_json. rewrite Hc. reflexivity. }
        rewrite E0.
        exists 1%nat,
          [EvPost email_url ("Bearer " ++ RESEND_API_KEY w)%string
                  (mkPayload sender email subject html)].
        cbn [fst snd]. rewrite Hw1. repeat split; cbn; try lia. discriminate.
    + assert (E0 : send_loop subject html (email :: rest) w = (Raise e, w1)).
      { cbn [send_loop]. unfold bind. rewrite send_email_step. cbv zeta.
        rewrite Hapi. reflexivity. }
      rewrite E0.
      exists 1%nat,
        [EvPost email_url ("Bearer " ++ RESEND_API_KEY w)%string
                (mkPayload sender email subject html)].
      cbn [fst snd]. rewrite Hw1. repeat split; cbn; try lia. discriminate.
Qed.

(** One iteration of the retry loop, case by case. *)
Lemma fetch_loop_S (n : nat) (attempt max_retries d : Z) (w : world) :
  fetch_loop (S n) attempt max_retries d w =
    let w1 := count_get (log (EvGet price_url price_params) w) in
    match price_api w (gets w) with
    | Raise e => (Raise e, w1)
    | Ret r =>
        if status_code r =? 200 then (response_json r, w1)
        else if status_code r =? 429 then
          if attempt <? max_retries - 1 then
            let w2 := log (EvWarning [Lit "Rate limit hit. Retrying in ";
                                      Str (PyInt d); Lit " seconds..."]) w1 in
            if (d <? - max_sleep) || (max_sleep <? d) then (Raise OverflowError, w2)
            else if d <? 0 then (Raise ValueError, w2)
            else fetch_loop n (attempt + 1) max_retries (d * 2) (log (EvSleep d) w2)
          else
            fetch_loop n (attempt + 1) max_retries d
              (log (EvError [Lit "Rate limit exceeded. Please try again later."]) w1)
        else
          (Ret PyNone,
           log (EvError [Lit "Error fetching data: "; Str (PyInt (status_code r))]) w1)
    end.
Proof.
  cbn [fetch_loop]. unfold bind, requests_get, st_warning, st_error, time_sleep,
    emit, lift, ret, raise. cbv zeta.
  destruct (price_api w (gets w)) as [r|e]; [|reflexivity].
  destruct (status_code r =? 200); [reflexivity|].
  destruct (status_code r =? 429); [|reflexivity].
  destruct (attempt <? max_retries - 1); [|reflexivity].
  destruct ((d <? - max_sleep) || (max_sleep <? d)); [reflexivity|].
  destruct (d <? 0); reflexivity.
Qed.

(** The result of the retry loop depends on the world through the
    answers of the price API only. *)
Lemma fetch_loop_result (n : nat) :
  forall (attempt max_retries d : Z) (w1 w2 : world),
    price_api w1 = price_api w2 ->
    gets w1 = gets w2 ->
    fst (fetch_loop n attempt max_retries d w1) =
    fst (fetch_loop n attempt max_retries d w2).
Proof.
  induction n as [|n IH]; intros attempt max_retries d w1 w2 Hapi Hgets;
    [reflexivity|].
  rewrite !fetch_loop_S. cbv zeta. rewrite Hapi, Hgets.
  destruct (price_api w2 (gets w2)) as [r|e]; [|reflexivity].
  destruct (status_code r =? 200); [reflexivity|].
  destruct (status_code r =? 429); [|reflexivity].
  destruct (attempt <? max_retries - 1).
  - destruct ((d <? - max_sleep) || (max_sleep <? d)); [reflexivity|].
    destruct (d <? 0); [reflexivity|].
    apply IH; cbn; [exact Hapi | f_equal; exact Hgets].
  - apply IH; cbn; [exact Hapi | f_equal; exact Hgets].
Qed.

Lemma runs_count_tick (w : world) : runs w (count_tick w) [].
Proof. unfold runs. cbn. rewrite app_nil_r. repeat split. Qed.

(** [send_daily_updates] on a stored list, step by step. *)
Lemma send_daily_updates_steps (w : world) (l : list pyval) :
  stored_list (subscribers_json w) = Some l ->
  send_daily_updates w =
    let w1 := log (EvOpen subscribers_path "r") w in
    match l with
    | [] => (Ret tt, log (EvPrint [Lit "No subscribers to send emails to."]) w1)
    | _ :: _ =>
        match fetch_crypto_data 3 5 w1 with
        | (Ret crypto_data, w2) =>
            if truthy crypto_data then
              match create_email_content crypto_data w2 with
              | (Ret email_content, w3) =>
                  send_loop digest_subject email_content l w3
              | (Raise e, w3) => (Raise e, w3)
              end
            else
              (Ret tt, log (EvPrint [Lit "Failed to fetch cryptocurrency data."]) w2)
        | (Raise e, w2) => (Raise e, w2)
        end
    end.
Proof.
  intros Hl. unfold send_daily_updates. unfold bind at 1.
  rewrite (load_stored_list w l Hl). cbv zeta.
  destruct l as [|x l]; [reflexivity|]. cbn [truthy negb].
  unfold bind at 1.
  destruct (fetch_crypto_data 3 5 _) as [[crypto_data|e] w2]; [|reflexivity].
  destruct (truthy crypto_data); cbn [negb]; [|reflexivity].
  unfold bind at 1.
  destruct (create_email_content crypto_data w2) as [[email_content|e] w3];
    [|reflexivity].
  reflexivity.
Qed.

(** X13.  In every run of [send_daily_updates] over a stored list, and
    whatever the two APIs answer, the POSTs go to a first part of the
    list, one per entry and in list order, all with the sender address,
    the authorization header, the subject and one and the same body;
    nobody outside the list is written to. *)
Theorem send_daily_updates_recipients :
  forall (w : world) (l : list pyval),
    stored_list (subscribers_json w) = Some l ->
    let w' := snd (send_daily_updates w) in
    exists (k : nat) (html : string),
      (k <= List.length l)%nat /\
      posts w' = (posts w + k)%nat /\
      posted (trace w') =
        posted (trace w) ++ map (post_to w digest_subject html) (firstn k l).
Proof.
  intros w l Hl w'. subst w'.
  rewrite (send_daily_updates_steps w l Hl). cbv zeta.
  set (w1 := log (EvOpen subscribers_path "r") w).
  assert (Hnone : forall evs (w2 : world),
             runs w1 w2 evs -> posted evs = [] -> posts w2 = posts w ->
             exists (k : nat) (html : string),
               (k <= List.length l)%nat /\ posts w2 = (posts w + k)%nat /\
               posted (trace w2) =
                 posted (trace w) ++ map (post_to w digest_subject html) (firstn k l)).
  { intros evs w2 (_ & _ & _ & _ & _ & Ht) Hp Hposts.
    exists 0%nat, EmptyString. split; [lia|]. split; [lia|].
    rewrite Ht, posted_app, Hp. unfold w1. cbn [log trace].
    rewrite posted_app. cbn. rewrite !app_nil_r. reflexivity. }
  destruct l as [|x l'].
  { apply (Hnone [EvPrint [Lit "No subscribers to send emails to."]]);
      [apply runs_log | reflexivity | reflexivity]. }
  set (l := x :: l') in *.
  destruct (fetch_crypto_data_effect 3 5 w1) as (g & j & evs & E & _ & _ & _ & Hq).
  destruct (fetch_events_quiet evs Hq) as (Hp & _ & _ & _ & _).
  destruct (fetch_crypto_data 3 5 w1) as [[crypto_data|e] w2]; cbn [snd] in E;
    subst w2.
  2: { apply (Hnone evs); [apply runs_after_gets | exact Hp | reflexivity]. }
  destruct (truthy crypto_data).
  2: { cbn [snd]. apply (Hnone (evs ++ [EvPrint [Lit "Failed to fetch cryptocurrency data."]])).
       - apply (runs_trans _ _ _ _ _ (runs_after_gets g evs w1)). apply runs_log.
       - rewrite posted_app, Hp. reflexivity.
       - reflexivity. }
  set (w2 := after_gets g evs w1).
  destruct (create_email_content_world crypto_data w2)
    as [(body & Ec) | [(e & Ec) | (e & Ec)]]; rewrite Ec.
  - destruct (send_loop_effect digest_subject body l (count_tick w2))
      as (k & evs' & E' & Hk & Hp' & _).
    exists k, body. rewrite E'. split; [exact Hk|]. split; [reflexivity|].
    unfold after_posts, count_tick, w2, after_gets, w1, log. cbn [trace].
    rewrite !posted_app, Hp, Hp'. cbn [posted]. rewrite !app_nil_r. reflexivity.
  - cbn [snd]. apply (Hnone evs); [apply runs_after_gets | exact Hp | reflexivity].
  - cbn [snd]. apply (Hnone (evs ++ [])); [|rewrite app_nil_r; exact Hp | reflexivity].
    apply (runs_trans _ _ _ _ _ (runs_after_gets g evs w1)). apply runs_count_tick.
Qed.

Lemma send_daily_updates_recipients_witness :
  exists (k : nat) (html : string),
    (k <= 2)%nat /\
    posts (snd (send_daily_updates email_api_down)) = k /\
    posted (trace (snd (send_daily_updates email_api_down))) =
      map (post_to email_api_down digest_subject html)
          (firstn k [PyStr "a@x.com"; PyStr "b@y.com"]).
Proof.
  apply (send_daily_updates_recipients email_api_down
           [PyStr "a@x.com"; PyStr "b@y.com"]).
  reflexivity.
Defined.

(** Every run of [send_daily_updates] opens the subscriber file once,
    for reading, and adds no other file access to the trace. *)
Lemma send_daily_updates_runs (w : world) :
  exists evs,
    runs w (snd (send_daily_updates w)) (EvOpen subscribers_path "r" :: evs) /\
    writes evs = [] /\ opened evs = [].
Proof.
  unfold send_daily_updates. unfold bind at 1.
  pose proof (load_subscribers_world w) as Hload.
  destruct (load_subscribers w) as [[subscribers|e] w1]; cbn [snd] in Hload; subst w1.
  2: { exists []. split; [apply runs_log | split; reflexivity]. }
  set (w1 := log (EvOpen subscribers_path "r") w).
  assert (Hw1 : runs w w1 [EvOpen subscribers_path "r"]) by apply runs_log.
  assert (Hfin : forall evs w2,
             runs w1 w2 evs -> writes evs = [] -> opened evs = [] ->
             exists evs0, runs w w2 (EvOpen subscribers_path "r" :: evs0) /\
                          writes evs0 = [] /\ opened evs0 = []).
  { intros evs w2 H Hw Ho. exists evs. split; [|split; assumption].
    exact (runs_trans _ _ _ _ _ Hw1 H). }
  destruct (truthy subscribers); cbn [negb].
  2: { apply (Hfin [EvPrint [Lit "No subscribers to send emails to."]]);
         [apply runs_log | reflexivity | reflexivity]. }
  unfold bind at 1.
  destruct (fetch_crypto_data_effect 3 5 w1) as (g & j & evs & E & _ & _ & _ & Hq).
  destruct (fetch_events_quiet evs Hq) as (_ & _ & Hw & Ho & _).
  destruct (fetch_crypto_data 3 5 w1) as [[crypto_data|e] w2]; cbn [snd] in E;
    subst w2.
  2: { apply (Hfin evs); [apply runs_after_gets | exact Hw | exact Ho]. }
  destruct (truthy crypto_data); cbn [negb].
  2: { apply (Hfin (evs ++ [EvPrint [Lit "Failed to fetch cryptocurrency data."]])).
       - apply (runs_trans _ _ _ _ _ (runs_after_gets g evs w1)). apply runs_log.
       - rewrite writes_app, Hw. reflexivity.
       - rewrite opened_app, Ho. reflexivity. }
  set (w2 := after_gets g evs w1).
  assert (Hw2 : runs w1 w2 evs) by apply runs_after_gets.
  assert (Htick : runs w1 (count_tick w2) (evs ++ []))
    by (apply (runs_trans _ _ _ _ _ Hw2); apply runs_count_tick).
  rewrite app_nil_r in Htick.
  unfold bind at 1.
  destruct (create_email_content_world crypto_data w2)
    as [(body & Ec) | [(e & Ec) | (e & Ec)]]; rewrite Ec.
  - unfold bind at 1, lift.
    destruct (py_iter subscribers) as [todo|e].
    + destruct (send_loop_effect digest_subject body todo (count_tick w2))
        as (k & evs' & E' & _ & _ & Hw' & Ho' & _).
      rewrite E'. apply (Hfin (evs ++ evs')).
      * apply (runs_trans _ _ _ _ _ Htick). apply runs_after_posts.
      * rewrite writes_app, Hw, Hw'. reflexivity.
      * rewrite opened_app, Ho, Ho'. reflexivity.
    + apply (Hfin evs); assumption.
  - apply (Hfin evs); assumption.
  - apply (Hfin evs); assumption.
Qed.

(** X14.  [send_daily_updates] never changes the list of subscribers:
    in every world, whatever the file holds and whatever the APIs
    answer, the subscriber file has the same contents afterwards, nothing
    was written, and the file was opened exactly once, for reading. *)
Theorem send_daily_updates_read_only :
  forall w : world,
    let w' := snd (send_daily_updates w) in
    subscribers_json w' = subscribers_json w /\
    writes (trace w') = writes (trace w) /\
    opened (trace w') = opened (trace w) ++ [(subscribers_path, "r")].
Proof.
  intros w w'. subst w'.
  destruct (send_daily_updates_runs w) as (evs & (_ & _ & _ & _ & Hf & Ht) & Hw & Ho).
  rewrite Hf, Ht, writes_app, opened_app. cbn [writes opened]. rewrite Hw, Ho.
  rewrite app_nil_r. repeat split.
Qed.

(** X15.  With nobody to write to (no subscriber file, a file that the
    decoder rejects with [JSONDecodeError], or an empty list),
    [send_daily_updates] prints "No subscribers to send emails to." and
    returns without a request to either API. *)
Theorem send_daily_updates_no_subscribers :
  forall w : world,
    stored_list (subscribers_json w) = Some [] ->
    let w' := snd (send_daily_updates w) in
    fst (send_daily_updates w) = Ret tt /\
    gets w' = gets w /\ posts w' = posts w /\
    trace w' = trace w ++ [EvOpen subscribers_path "r";
                           EvPrint [Lit "No subscribers to send emails to."]].
Proof.
  intros w Hl w'. subst w'.
  rewrite (send_daily_updates_steps w [] Hl). cbn.
  rewrite <- app_assoc. repeat split.
Qed.

Lemma send_daily_updates_no_subscribers_witness :
  fst (send_daily_updates corrupt_file) = Ret tt /\
  gets (snd (send_daily_updates corrupt_file)) = 0%nat /\
  posts (snd (send_daily_updates corrupt_file)) = 0%nat.
Proof.
  destruct (send_daily_updates_no_subscribers corrupt_file eq_refl)
    as (H1 & H2 & H3 & _).
  exact (conj H1 (conj H2 H3)).
Defined.

(** X16.  When [fetch_crypto_data] comes back empty-handed ([None]
    after an error status or too many rate-limited attempts, or any other
    falsy value such as [{}]), [send_daily_updates] prints "Failed to
    fetch cryptocurrency data." and returns: nothing is rendered, the
    clock is not read and nobody is written to. *)
Theorem send_daily_updates_fetch_failed :
  forall (w : world) (l : list pyval) (v : pyval),
    stored_list (subscribers_json w) = Some l ->
    l <> [] ->
    fst (fetch_crypto_data 3 5 w) = Ret v ->
    truthy v = false ->
    let w' := snd (send_daily_updates w) in
    fst (send_daily_updates w) = Ret tt /\
    posts w' = posts w /\
    ticks w' = ticks w /\
    posted (trace w') = posted (trace w) /\
    prints (trace w') =
      prints (trace w) ++ [[Lit "Failed to fetch cryptocurrency data."]].
Proof.
  intros w l v Hl Hne Hfetch Hfalsy w'. subst w'.
  rewrite (send_daily_updates_steps w l Hl). cbv zeta.
  destruct l as [|x l']; [contradiction|].
  set (w1 := log (EvOpen subscribers_path "r") w).
  assert (Hres : fst (fetch_crypto_data 3 5 w1) = Ret v).
  { rewrite <- Hfetch. unfold fetch_crypto_data. apply fetch_loop_result; reflexivity. }
  destruct (fetch_crypto_data_effect 3 5 w1) as (g & j & evs & E & _ & _ & _ & Hq).
  destruct (fetch_events_quiet evs Hq) as (Hp & _ & _ & _ & Hpr).
  destruct (fetch_crypto_data 3 5 w1) as [r w2]. cbn [fst snd] in Hres, E.
  subst r w2. rewrite Hfalsy. cbn [fst snd].
  unfold log, after_gets, w1. cbn [posts ticks trace log].
  rewrite !posted_app, !prints_app, Hp, Hpr. cbn [posted prints].
  rewrite !app_nil_r. repeat split.
Qed.

Lemma send_daily_updates_fetch_failed_witness :
  fst (send_daily_updates (with_file two_subscribers always_limited)) = Ret tt /\
  posts (snd (send_daily_updates (with_file two_subscribers always_limited))) = 0%nat /\
  prints (trace (snd (send_daily_updates (with_file two_subscribers always_limited)))) =
    [[Lit "Failed to fetch cryptocurrency data."]].
Proof.
  destruct (send_daily_updates_fetch_failed
              (with_file two_subscribers always_limited)
              [PyStr "a@x.com"; PyStr "b@y.com"] PyNone)
    as (H1 & H2 & _ & _ & H5).
  - reflexivity.
  - discriminate.
  - reflexivity.
  - reflexivity.
  - exact (conj H1 (conj H2 H5)).
Defined.

Lemma render_truthy (snapshot : pyval) (date : string) (sb : string * string) :
  render snapshot date = Ret sb -> truthy snapshot = true.
Proof.
  unfold render, subscript. destruct snapshot; cbn [and_then]; try discriminate.
  destruct items as [|kv items]; [discriminate | reflexivity].
Qed.

(** X17.  The whole of a successful run.  With a stored list that is
    not empty, a price API that answers the first request with 200 and a
    snapshot from which the digest can be rendered, and an e-mail API
    that answers every POST with a JSON body, [send_daily_updates]
    makes one GET, reads the clock once, renders one body for the date of
    that moment, POSTs it to every stored entry in list order and prints
    one line per entry ("sent" for a 200, "Failed" with the answer
    otherwise); it never sleeps and returns normally. *)
Theorem send_daily_updates_delivers :
  forall (w : world) (l : list pyval) (r : response) (snapshot : pyval)
         (body : string),
    stored_list (subscribers_json w) = Some l ->
    l <> [] ->
    price_api w (gets w) = Ret r ->
    status_code r = 200 ->
    content r = Json snapshot ->
    render snapshot (today w) = Ret (digest_subject, body) ->
    (forall n p, exists r' b, email_api w n p = Ret r' /\ content r' = Json b) ->
    let w' := snd (send_daily_updates w) in
    fst (send_daily_updates w) = Ret tt /\
    gets w' = (gets w + 1)%nat /\
    ticks w' = (ticks w + 1)%nat /\
    posts w' = (posts w + List.length l)%nat /\
    posted (trace w') =
      posted (trace w) ++ map (post_to w digest_subject body) l /\
    prints (trace w') =
      prints (trace w) ++ reports (email_api w) (posts w) digest_subject body l /\
    sleeps (trace w') = sleeps (trace w).
Proof.
  intros w l r snapshot body Hl Hne Hr H200 Hjson Hrender Hmail w'. subst w'.
  rewrite (send_daily_updates_steps w l Hl). cbv zeta.
  destruct l as [|x l']; [contradiction|]. set (l := x :: l') in *.
  set (w1 := log (EvOpen subscribers_path "r") w).
  set (w2 := count_get (log (EvGet price_url price_params) w1)).
  assert (Hfetch : fetch_crypto_data 3 5 w1 = (Ret snapshot, w2)).
  { unfold fetch_crypto_data. change (Z.to_nat 3) with 3%nat.
    rewrite fetch_loop_S. cbv zeta.
    change (price_api w1 (gets w1)) with (price_api w (gets w)).
    rewrite Hr, H200. unfold response_json. rewrite Hjson. reflexivity. }
  rewrite Hfetch, (render_truthy _ _ _ Hrender).
  assert (Hbody : fst (create_email_content snapshot w2) = Ret body).
  { destruct (create_email_content_render snapshot w2) as (E & _). rewrite E.
    change (today w2) with (today w). rewrite Hrender. reflexivity. }
  assert (Hcec : create_email_content snapshot w2 = (Ret body, count_tick w2)).
  { destruct (create_email_content_world snapshot w2)
      as [(b & Ec) | [(e & Ec) | (e & Ec)]]; rewrite Ec in Hbody |- *;
      cbn [fst] in Hbody; [congruence | discriminate | discriminate]. }
  rewrite Hcec.
  set (w3 := count_tick w2).
  destruct (send_loop_json_answers digest_subject body l w3) as (H1 & _ & H3 & H4).
  { intros n p. apply (Hmail n p). }
  destruct (send_loop_effect digest_subject body l w3)
    as (k & evs & E & _ & Hp & _ & _ & Hs & Hall).
  specialize (Hall H1). subst k. rewrite firstn_all in Hp.
  split; [exact H1|].
  rewrite H3, H4. rewrite E.
  unfold after_posts, w3, count_tick, w2, count_get, w1, log.
  cbn [gets ticks posts trace email_api].
  rewrite !posted_app, !prints_app, !sleeps_app, Hp, Hs.
  cbn [posted prints sleeps]. rewrite !app_nil_r.
  repeat split; lia.
Qed.

Lemma send_daily_updates_delivers_witness :
  fst (send_daily_updates (with_file two_subscribers world0)) = Ret tt /\
  posts (snd (send_daily_updates (with_file two_subscribers world0))) = 2%nat /\
  prints (trace (snd (send_daily_updates (with_file two_subscribers world0)))) =
    [[Lit "Email sent successfully to "; Str (PyStr "a@x.com")];
     [Lit "Email sent successfully to "; Str (PyStr "b@y.com")]].
Proof.
  destruct (send_daily_updates_delivers
              (with_file two_subscribers world0)
              [PyStr "a@x.com"; PyStr "b@y.com"]
              (mkResponse 200 (Json snapshot_small)) snapshot_small
              (nl ++ "    <h2>Daily Cryptocurrency Update</h2>"
                 ++ nl ++ "    <p>Date: 2024-01-15</p>"
                 ++ nl ++ "    <h3>Bitcoin (BTC)</h3>"
                 ++ nl ++ "    <p>Current Price: $65,000.00</p>"
                 ++ nl ++ "    <p>24h Change: 1.00%</p>"
                 ++ nl ++ "    <h3>Ethereum (ETH)</h3>"
                 ++ nl ++ "    <p>Current Price: $3,200.00</p>"
                 ++ nl ++ "    <p>24h Change: 2.00%</p>"
                 ++ nl ++ "    ")%string)
    as (H1 & _ & _ & H4 & _ & H6 & _).
  - reflexivity.
  - discriminate.
  - reflexivity.
  - reflexivity.
  - reflexivity.
  - vm_compute. reflexivity.
  - intros n p. eexists. eexists. split; reflexivity.
  - exact (conj H1 (conj H4 H6)).
Defined.

(* ------------------------------------------------------------------ *)
(** ** [main] *)

Lemma listed_app (a b : list widget) : listed (a ++ b) = listed a ++ listed b.
Proof.
  induction a as [|x a IH]; simpl; [reflexivity|].
  destruct x; simpl; rewrite IH; reflexivity.
Qed.

Lemma written_app (a b : list widget) : written (a ++ b) = written a ++ written b.
Proof.
  induction a as [|x a IH]; simpl; [reflexivity|].
  destruct x; simpl; rewrite IH; reflexivity.
Qed.

Lemma ui_draw_bind {B} (wd : widget) (k : unit -> UI B) (s : session) :
  ui_bind (draw wd) k s = k tt (mkSession (s_world s) (s_page s ++ [wd])).
Proof. reflexivity. Qed.

Lemma ui_call_bind {A B} (c : M A) (k : A -> UI B) (s : session) :
  ui_bind (call c) k s =
    match c (s_world s) with
    | (Ret a, w') => k a (mkSession w' (s_page s))
    | (Raise e, w') => (Raise e, mkSession w' (s_page s))
    end.
Proof.
  unfold ui_bind, call. destruct (c (s_world s)) as [[a|e] w']; reflexivity.
Qed.

Lemma ui_lift_bind {A B} (r : result A) (k : A -> UI B) (s : session) :
  ui_bind (call (lift r)) k s =
    match r with
    | Ret a => k a (mkSession (s_world s) (s_page s))
    | Raise e => (Raise e, mkSession (s_world s) (s_page s))
    end.
Proof. rewrite ui_call_bind. unfold lift. destruct r; reflexivity. Qed.

Lemma keeps_ret {A} (a : A) : keeps (ui_ret a).
Proof. intros s. split; reflexivity. Qed.

Lemma keeps_draw (wd : widget) : listed [wd] = [] -> keeps (draw wd).
Proof.
  intros H s. cbn. rewrite listed_app, H, app_nil_r. split; reflexivity.
Qed.

Lemma keeps_lift {A} (r : result A) : keeps (call (lift r)).
Proof. intros s. split; reflexivity. Qed.

Lemma keeps_bind {A B} (c : UI A) (k : A -> UI B) :
  keeps c -> (forall a, keeps (k a)) -> keeps (ui_bind c k).
Proof.
  intros Hc Hk s. unfold ui_bind. destruct (Hc s) as (H1 & H2).
  destruct (c s) as [[a|e] s']; cbn [snd] in *.
  - destruct (Hk a s') as (K1 & K2). rewrite K1, K2. split; assumption.
  - split; assumption.
Qed.

Ltac keeps_tac :=
  repeat first
    [ apply keeps_ret
    | apply keeps_lift
    | apply keeps_draw; reflexivity
    | apply keeps_bind; [|intros ?] ].

(** The rates panel does to the world what its call of
    [fetch_crypto_data] does, and lists no subscriber. *)
Lemma rates_panel_world (s : session) :
  s_world (snd (rates_panel s)) = snd (fetch_crypto_data 3 5 (s_world s)) /\
  listed (s_page (snd (rates_panel s))) = listed (s_page s).
Proof.
  unfold rates_panel. rewrite ui_draw_bind, ui_call_bind. cbn [s_world s_page].
  destruct (fetch_crypto_data 3 5 (s_world s)) as [[v|e] w']; cbn [snd s_world s_page].
  - match goal with
    | |- context [(if truthy v then ?big else ?small) ?s'] =>
        assert (K : keeps (if truthy v then big else small))
    end.
    { destruct (truthy v); keeps_tac. }
    match goal with
    | |- context [snd (?c ?s')] => destruct (K s') as (K1 & K2)
    end.
    rewrite K1, K2. cbn [s_world s_page]. rewrite listed_app, app_nil_r.
    split; reflexivity.
  - rewrite listed_app, app_nil_r. split; reflexivity.
Qed.

Lemma ui_bind_unfold {A B} (c : UI A) (k : A -> UI B) (s : session) :
  ui_bind c k s =
    match c s with
    | (Ret a, s') => k a s'
    | (Raise e, s') => (Raise e, s')
    end.
Proof. reflexivity. Qed.

Lemma write_each_run (todo : list pyval) :
  forall s : session,
    write_each todo s =
      (Ret tt, mkSession (s_world s) (s_page s ++ map WWriteValue todo)).
Proof.
  induction todo as [|v rest IH]; intros s.
  - destruct s. cbn. rewrite app_nil_r. reflexivity.
  - cbn [write_each map]. rewrite ui_draw_bind, IH. cbn [s_world s_page].
    rewrite <- app_assoc. reflexivity.
Qed.

(** The "Current Subscribers" panel only reads the file. *)
Lemma subscribers_panel_world (s : session) :
  s_world (snd (subscribers_panel s)) =
    log (EvOpen subscribers_path "r") (s_world s).
Proof.
  unfold subscribers_panel. rewrite ui_draw_bind, ui_call_bind. cbn [s_world s_page].
  pose proof (load_subscribers_world (s_world s)) as Hload.
  destruct (load_subscribers (s_world s)) as [[subscribers|e] w']; cbn [snd] in Hload;
    subst w'; [|reflexivity].
  destruct (truthy subscribers); [|reflexivity].
  rewrite ui_lift_bind. destruct (py_iter subscribers) as [todo|e]; [|reflexivity].
  rewrite write_each_run. reflexivity.
Qed.

(** On a stored list the panel shows its entries in order, or "No
    subscribers yet." when there is none. *)
Lemma subscribers_panel_run (s : session) (l : list pyval) :
  stored_list (subscribers_json (s_world s)) = Some l ->
  subscribers_panel s =
    (Ret tt,
     mkSession (log (EvOpen subscribers_path "r") (s_world s))
               (s_page s ++ WExpander "Current Subscribers" false ::
                  match l with
                  | [] => [WWrite "No subscribers yet."]
                  | _ :: _ => map WWriteValue l
                  end)).
Proof.
  intros Hl. unfold subscribers_panel.
  rewrite ui_draw_bind, ui_call_bind. cbn [s_world s_page].
  rewrite (load_stored_list _ _ Hl).
  destruct l as [|x l']; cbn [truthy].
  - unfold draw. cbn [s_world s_page]. rewrite <- app_assoc. reflexivity.
  - rewrite ui_lift_bind. cbn [py_iter]. rewrite write_each_run. cbn [s_world s_page].
    rewrite <- app_assoc. reflexivity.
Qed.

(** [main], block by block. *)
Lemma main_steps (i : inputs) (w : world) :
  run_main i w =
    match rates_panel (mkSession w [WTitle "Cryptocurrency Email Updates"]) with
    | (Raise e, s2) => (Raise e, s2)
    | (Ret _, s2) =>
        let page3 := ((s_page s2 ++ [WSubheader "Subscribe to Daily Updates"])
                        ++ [WTextInput "Enter your email address:"])
                       ++ [WButton "Subscribe"] in
        match (if subscribe_pressed i then subscribe (email_input i) (s_world s2)
               else (Ret tt, s_world s2)) with
        | (Raise e, w4) => (Raise e, mkSession w4 page3)
        | (Ret _, w4) =>
            match subscribers_panel (mkSession w4 page3) with
            | (Raise e, s5) => (Raise e, s5)
            | (Ret _, s5) =>
                let page6 := s_page s5 ++ [WButton "Send Test Email"] in
                if send_pressed i then
                  match send_daily_updates (s_world s5) with
                  | (Raise e, w7) => (Raise e, mkSession w7 page6)
                  | (Ret _, w7) =>
                      (Ret tt,
                       mkSession (log (EvSuccess [Lit "Test emails sent!"]) w7) page6)
                  end
                else (Ret tt, mkSession (s_world s5) page6)
            end
        end
    end.
Proof.
  unfold run_main, main. rewrite ui_draw_bind. cbn [s_world s_page app].
  rewrite ui_bind_unfold.
  destruct (rates_panel _) as [[[]|e] s2]; [|reflexivity].
  rewrite !ui_draw_bind. cbn [s_world s_page]. cbv zeta.
  rewrite ui_bind_unfold.
  destruct (subscribe_pressed i).
  - unfold call at 1. cbn [s_world s_page].
    destruct (subscribe (email_input i) (s_world s2)) as [[[]|e] w4]; [|reflexivity].
    rewrite ui_bind_unfold.
    destruct (subscribers_panel _) as [[[]|e] s5]; [|reflexivity].
    rewrite ui_draw_bind. destruct (send_pressed i); [|reflexivity].
    rewrite ui_call_bind. cbn [s_world s_page].
    destruct (send_daily_updates (s_world s5)) as [[[]|e] w7]; reflexivity.
  - unfold ui_ret at 1.
    rewrite ui_bind_unfold.
    destruct (subscribers_panel _) as [[[]|e] s5]; [|reflexivity].
    rewrite ui_draw_bind. destruct (send_pressed i); [|reflexivity].
    rewrite ui_call_bind. cbn [s_world s_page].
    destruct (send_daily_updates (s_world s5)) as [[[]|e] w7]; reflexivity.
Qed.

Lemma listed_map (l : list pyval) : listed (map WWriteValue l) = l.
Proof. induction l as [|v l IH]; cbn; [reflexivity | rewrite IH; reflexivity]. Qed.

(** The world after the rates panel, seen from the world before the
    run. *)
Lemma rates_panel_runs (w : world) (page : list widget) :
  exists (g : nat) (evs : list event),
    s_world (snd (rates_panel (mkSession w page))) = after_gets g evs w /\
    forallb fetch_event evs = true.
Proof.
  destruct (rates_panel_world (mkSession w page)) as (Hw & _).
  destruct (fetch_crypto_data_effect 3 5 w) as (g & j & evs & E & _ & _ & _ & Hq).
  exists g, evs. split; [|exact Hq]. rewrite Hw. exact E.
Qed.

(** X18.  A press of "Subscribe" is visible at once: whenever the run of
    the page that handles the press completes, the "Current Subscribers"
    panel of that same run lists exactly the stored list as it is after
    the press (with the new address at its end when one was added), and
    this is the list in the file. *)
Theorem main_lists_stored_subscribers :
  forall (i : inputs) (w : world) (l : list pyval),
    subscribe_pressed i = true ->
    stored_list (subscribers_json w) = Some l ->
    fst (run_main i w) = Ret tt ->
    let s' := snd (run_main i w) in
    stored_list (subscribers_json (s_world s')) = Some (subscribed (email_input i) l) /\
    listed (s_page s') = subscribed (email_input i) l.
Proof.
  intros i w l Hpress Hl Hret s'. subst s'. revert Hret.
  rewrite main_steps, Hpress.
  destruct (rates_panel_world (mkSession w [WTitle "Cryptocurrency Email Updates"]))
    as (_ & Hlisted).
  destruct (rates_panel_runs w [WTitle "Cryptocurrency Email Updates"])
    as (g & evs & Hw2 & _).
  destruct (rates_panel _) as [[[]|e] s2]; [|discriminate].
  cbn [snd s_world s_page] in Hw2, Hlisted. cbv zeta.
  assert (Hl2 : stored_list (subscribers_json (s_world s2)) = Some l)
    by (rewrite Hw2; exact Hl).
  destruct (subscribe_stored (email_input i) (s_world s2) l Hl2) as (Hr & Hs).
  destruct (subscribe (email_input i) (s_world s2)) as [[[]|e] w4];
    cbn [fst snd] in Hr, Hs; [|discriminate].
  set (page3 := (_ ++ [WButton "Subscribe"])).
  assert (Hp3 : listed page3 = []).
  { unfold page3. rewrite !listed_app, Hlisted. reflexivity. }
  rewrite (subscribers_panel_run (mkSession w4 page3) _ Hs). cbn [s_world s_page].
  set (l' := subscribed (email_input i) l) in *.
  assert (Hp5 : listed (page3 ++ WExpander "Current Subscribers" false ::
                          match l' with
                          | [] => [WWrite "No subscribers yet."]
                          | _ :: _ => map WWriteValue l'
                          end) = l').
  { rewrite listed_app, Hp3. cbn [app listed].
    destruct l' as [|x l'']; [reflexivity|]. apply listed_map. }
  destruct (send_pressed i).
  - destruct (send_daily_updates_runs (log (EvOpen subscribers_path "r") w4))
      as (evs7 & (_ & _ & _ & _ & Hf & _) & _).
    destruct (send_daily_updates _) as [[[]|e] w7]; [|discriminate].
    cbn [snd] in Hf. intros _. cbn [snd s_world s_page log subscribers_json].
    rewrite listed_app, Hp5, app_nil_r. cbn [log subscribers_json] in Hf.
    rewrite Hf. split; [exact Hs | reflexivity].
  - intros _. cbn [snd s_world s_page log subscribers_json].
    rewrite listed_app, Hp5, app_nil_r. split; [exact Hs | reflexivity].
Qed.

Lemma main_lists_stored_subscribers_witness :
  listed (s_page (snd (run_main (mkInputs "c@z.com" true false)
                                  (with_file two_subscribers world0)))) =
    [PyStr "a@x.com"; PyStr "b@y.com"; PyStr "c@z.com"].
Proof.
  apply (main_lists_stored_subscribers (mkInputs "c@z.com" true false)
           (with_file two_subscribers world0)
           [PyStr "a@x.com"; PyStr "b@y.com"]); reflexivity.
Defined.

(** X19.  Looking at the page changes nothing and sends nothing: a run
    of [main] in which no button was pressed, whatever is typed in the
    address field, whatever the file holds and whatever the price API
    answers, makes no POST and leaves the subscriber file as it is. *)
Theorem main_without_buttons :
  forall (i : inputs) (w : world),
    subscribe_pressed i = false ->
    send_pressed i = false ->
    let w' := s_world (snd (run_main i w)) in
    posts w' = posts w /\
    posted (trace w') = posted (trace w) /\
    subscribers_json w' = subscribers_json w /\
    writes (trace w') = writes (trace w).
Proof.
  intros i w Hsub Hsend w'. subst w'.
  rewrite main_steps, Hsub, Hsend.
  destruct (rates_panel_runs w [WTitle "Cryptocurrency Email Updates"])
    as (g & evs & Hw2 & Hq).
  destruct (fetch_events_quiet evs Hq) as (Hp & _ & Hw & _).
  destruct (rates_panel _) as [[[]|e] s2]; cbn [snd] in Hw2.
  - cbv zeta.
    pose proof (subscribers_panel_world
                  (mkSession (s_world s2)
                     (((s_page s2 ++ [WSubheader "Subscribe to Daily Updates"])
                         ++ [WTextInput "Enter your email address:"])
                        ++ [WButton "Subscribe"]))) as Hw5.
    destruct (subscribers_panel _) as [[[]|e] s5]; cbn [snd s_world] in Hw5 |- *;
      rewrite Hw5, Hw2; unfold after_gets, log; cbn [posts trace subscribers_json];
      rewrite !posted_app, !writes_app, Hp, Hw; cbn [posted writes];
      rewrite !app_nil_r; repeat split.
  - cbn [snd]. rewrite Hw2. unfold after_gets. cbn [posts trace subscribers_json].
    rewrite posted_app, writes_app, Hp, Hw, !app_nil_r. repeat split.
Qed.

Lemma main_without_buttons_witness :
  posts (s_world (snd (run_main (mkInputs "a@x.com" false false) always_limited)))
    = 0%nat /\
  subscribers_json
    (s_world (snd (run_main (mkInputs "a@x.com" false false) always_limited)))
    = None.
Proof.
  destruct (main_without_buttons (mkInputs "a@x.com" false false) always_limited
              eq_refl eq_refl) as (H1 & _ & H3 & _).
  exact (conj H1 H3).
Defined.

(** X20.  "Send Test Email" reports success whenever
    [send_daily_updates] returns, also when no e-mail went out: with
    nobody subscribed, every completed run in which the button was
    pressed ends on the banner "Test emails sent!", right after the line
    "No subscribers to send emails to.", and has made no POST. *)
Theorem main_test_email_without_subscribers :
  forall (i : inputs) (w : world),
    subscribe_pressed i = false ->
    send_pressed i = true ->
    stored_list (subscribers_json w) = Some [] ->
    fst (run_main i w) = Ret tt ->
    let w' := s_world (snd (run_main i w)) in
    posts w' = posts w /\
    posted (trace w') = posted (trace w) /\
    exists evs,
      trace w' =
        trace w ++ evs ++
        [EvPrint [Lit "No subscribers to send emails to."];
         EvSuccess [Lit "Test emails sent!"]].
Proof.
  intros i w Hsub Hsend Hl Hret w'. subst w'. revert Hret.
  rewrite main_steps, Hsub, Hsend.
  destruct (rates_panel_runs w [WTitle "Cryptocurrency Email Updates"])
    as (g & evs & Hw2 & Hq).
  destruct (fetch_events_quiet evs Hq) as (Hp & _).
  destruct (rates_panel _) as [[[]|e] s2]; cbn [snd] in Hw2; [|discriminate].
  cbv zeta.
  assert (Hl2 : stored_list (subscribers_json (s_world s2)) = Some [])
    by (rewrite Hw2; exact Hl).
  rewrite (subscribers_panel_run (mkSession (s_world s2) _) [] Hl2).
  cbn [s_world s_page].
  rewrite (send_daily_updates_steps (log (EvOpen subscribers_path "r") (s_world s2))
             [] Hl2).
  cbv zeta. intros _. cbn [snd s_world]. rewrite Hw2.
  unfold after_gets, log. cbn [posts trace].
  rewrite !posted_app, Hp. cbn [posted]. rewrite !app_nil_r.
  split; [reflexivity|]. split; [reflexivity|].
  exists (evs ++ [EvOpen subscribers_path "r"; EvOpen subscribers_path "r"]).
  rewrite <- !app_assoc. reflexivity.
Qed.

Lemma main_test_email_without_subscribers_witness :
  posts (s_world (snd (run_main (mkInputs EmptyString false true) world0))) = 0%nat /\
  exists evs,
    trace (s_world (snd (run_main (mkInputs EmptyString false true) world0))) =
      evs ++ [EvPrint [Lit "No subscribers to send emails to."];
              EvSuccess [Lit "Test emails sent!"]].
Proof.
  destruct (main_test_email_without_subscribers
              (mkInputs EmptyString false true) world0
              eq_refl eq_refl eq_refl eq_refl) as (H1 & _ & (evs & H3)).
  split; [exact H1|]. exists evs. exact H3.
Defined.

Lemma fetch_first_200 (w : world) (r : response) (v : pyval) :
  price_api w (gets w) = Ret r ->
  status_code r = 200 ->
  content r = Json v ->
  fetch_crypto_data 3 5 w = (Ret v, count_get (log (EvGet price_url price_params) w)).
Proof.
  intros Hr H200 Hv. unfold fetch_crypto_data. change (Z.to_nat 3) with 3%nat.
  rewrite fetch_loop_S. cbv zeta. rewrite Hr, H200. unfold response_json.
  rewrite Hv. reflexivity.
Qed.

Lemma field_inv (snapshot : pyval) (asset key : string) (v : pyval) :
  field snapshot asset key = Ret v ->
  exists a, subscript snapshot asset = Ret a /\ subscript a key = Ret v.
Proof.
  unfold field. destruct (subscript snapshot asset) as [a|e]; cbn [and_then];
    [|discriminate].
  intros H. exists a. split; [reflexivity | exact H].
Qed.

(** X21.  A 200 answer of the price API that is a non-empty object
    without "bitcoin" breaks the page: [main] raises [KeyError] inside
    the rates panel, after the heading of the Bitcoin column was drawn;
    the subscription form is not drawn, a press of "Subscribe" or "Send
    Test Email" is not handled, and the subscriber file is not even
    opened. *)
Theorem main_breaks_without_bitcoin :
  forall (i : inputs) (w : world) (r : response) (items : list (string * pyval)),
    price_api w (gets w) = Ret r ->
    status_code r = 200 ->
    content r = Json (PyDict items) ->
    items <> [] ->
    lookup "bitcoin" items = None ->
    let s' := snd (run_main i w) in
    fst (run_main i w) = Raise KeyError /\
    s_page s' = [WTitle "Cryptocurrency Email Updates";
                 WExpander "Current Cryptocurrency Rates" true;
                 WColumns 2;
                 WSubheader "Bitcoin (BTC)"] /\
    subscribers_json (s_world s') = subscribers_json w /\
    opened (trace (s_world s')) = opened (trace w) /\
    posts (s_world s') = posts w.
Proof.
  intros i w r items Hr H200 Hjson Hne Hnone s'. subst s'.
  rewrite main_steps.
  assert (E : rates_panel (mkSession w [WTitle "Cryptocurrency Email Updates"]) =
              (Raise KeyError,
               mkSession (count_get (log (EvGet price_url price_params) w))
                 [WTitle "Cryptocurrency Email Updates";
                  WExpander "Current Cryptocurrency Rates" true;
                  WColumns 2;
                  WSubheader "Bitcoin (BTC)"])).
  { unfold rates_panel. rewrite ui_draw_bind, ui_call_bind. cbn [s_world s_page].
    rewrite (fetch_first_200 w r _ Hr H200 Hjson).
    destruct items as [|kv items']; [contradiction|]. cbn [truthy].
    rewrite !ui_draw_bind, ui_lift_bind. cbn [s_world s_page].
    unfold subscript. rewrite Hnone. reflexivity. }
  rewrite E. cbn [fst snd s_world s_page count_get log subscribers_json trace posts].
  rewrite opened_app. cbn [opened]. rewrite app_nil_r. repeat split.
Qed.

Lemma main_breaks_without_bitcoin_witness :
  fst (run_main (mkInputs "a@x.com" true false) ethereum_only) = Raise KeyError /\
  subscribers_json (s_world (snd (run_main (mkInputs "a@x.com" true false)
                                            ethereum_only))) = None.
Proof.
  destruct (main_breaks_without_bitcoin (mkInputs "a@x.com" true false) ethereum_only
              (mkResponse 200
                 (Json (PyDict [("ethereum",
                                 PyDict [("usd", PyInt 3200);
                                         ("usd_24h_change", PyInt 2)])])))
              [("ethereum", PyDict [("usd", PyInt 3200); ("usd_24h_change", PyInt 2)])])
    as (H1 & _ & H3 & _).
  - reflexivity.
  - reflexivity.
  - reflexivity.
  - discriminate.
  - reflexivity.
  - exact (conj H1 H3).
Defined.

(** X22.  The page and the e-mail show the same numbers.  When the
    price API answers the first request with 200 and a snapshot whose
    four fields are numbers, the rates panel writes, in this order, the
    Bitcoin price, the Bitcoin change, the Ethereum price and the
    Ethereum change, formatted exactly as in the digest ([,.2f] after
    "Price: $", [.2f] between "24h Change: " and "%"), and the body
    [create_email_content] builds from the same snapshot contains these
    four formatted numbers. *)
Theorem main_rates_lines :
  forall (i : inputs) (w : world) (r : response) (snapshot : pyval)
         (bp bc ep ec : pyval) (sbp sbc sep sec : string),
    price_api w (gets w) = Ret r ->
    status_code r = 200 ->
    content r = Json snapshot ->
    field snapshot "bitcoin" "usd" = Ret bp ->
    field snapshot "bitcoin" "usd_24h_change" = Ret bc ->
    field snapshot "ethereum" "usd" = Ret ep ->
    field snapshot "ethereum" "usd_24h_change" = Ret ec ->
    py_format true bp = Ret sbp ->
    py_format false bc = Ret sbc ->
    py_format true ep = Ret sep ->
    py_format false ec = Ret sec ->
    firstn 4 (written (s_page (snd (run_main i w)))) =
      [("Price: $" ++ sbp)%string; ("24h Change: " ++ sbc ++ "%")%string;
       ("Price: $" ++ sep)%string; ("24h Change: " ++ sec ++ "%")%string] /\
    exists body,
      fst (create_email_content snapshot w) = Ret body /\
      contains ("Current Price: $" ++ sbp ++ "</p>") body = true /\
      contains ("24h Change: " ++ sbc ++ "%</p>") body = true /\
      contains ("Current Price: $" ++ sep ++ "</p>") body = true /\
      contains ("24h Change: " ++ sec ++ "%</p>") body = true.
Proof.
  intros i w r snapshot bp bc ep ec sbp sbc sep sec
         Hr H200 Hjson F1 F2 F3 F4 P1 P2 P3 P4.
  split.
  - destruct (field_inv _ _ _ _ F1) as (bitcoin & Hb & Hbp).
    destruct (field_inv _ _ _ _ F2) as (bitcoin' & Hb' & Hbc).
    rewrite Hb in Hb'. injection Hb' as <-.
    destruct (field_inv _ _ _ _ F3) as (ethereum & He & Hep).
    destruct (field_inv _ _ _ _ F4) as (ethereum' & He' & Hec).
    rewrite He in He'. injection He' as <-.
    assert (Htruthy : truthy snapshot = true).
    { unfold subscript in Hb. destruct snapshot; try discriminate.
      destruct items; [discriminate | reflexivity]. }
    assert (E : rates_panel (mkSession w [WTitle "Cryptocurrency Email Updates"]) =
                (Ret tt,
                 mkSession (count_get (log (EvGet price_url price_params) w))
                   [WTitle "Cryptocurrency Email Updates";
                    WExpander "Current Cryptocurrency Rates" true;
                    WColumns 2;
                    WSubheader "Bitcoin (BTC)";
                    WWrite ("Price: $" ++ sbp);
                    WWrite ("24h Change: " ++ sbc ++ "%");
                    WSubheader "Ethereum (ETH)";
                    WWrite ("Price: $" ++ sep);
                    WWrite ("24h Change: " ++ sec ++ "%")])).
    { unfold rates_panel. rewrite ui_draw_bind, ui_call_bind. cbn [s_world s_page].
      rewrite (fetch_first_200 w r _ Hr H200 Hjson), Htruthy.
      repeat (first [rewrite ui_draw_bind | rewrite ui_lift_bind];
              cbv beta iota; cbn [s_world s_page];
              rewrite ?Hb, ?Hbp, ?Hbc, ?He, ?Hep, ?Hec, ?P1, ?P2, ?P3, ?P4).
      reflexivity. }
    rewrite main_steps, E. cbv zeta. cbn [s_world s_page].
    set (page3 := (_ ++ [WButton "Subscribe"])).
    assert (Hpage : forall s5 : session,
               (exists more, s_page s5 = page3 ++ more) ->
               forall tail,
                 firstn 4 (written (s_page s5 ++ tail)) =
                   [("Price: $" ++ sbp)%string; ("24h Change: " ++ sbc ++ "%")%string;
                    ("Price: $" ++ sep)%string; ("24h Change: " ++ sec ++ "%")%string]).
    { intros s5 (more & ->) tail. unfold page3. cbn [app written]. reflexivity. }
    assert (Hprefix : forall (w4 : world),
               exists more,
                 s_page (snd (subscribers_panel (mkSession w4 page3))) = page3 ++ more).
    { intros w4. unfold subscribers_panel.
      rewrite ui_draw_bind, ui_call_bind. cbn [s_world s_page].
      destruct (load_subscribers w4) as [[subscribers|e] w5].
      - destruct (truthy subscribers).
        + rewrite ui_lift_bind. destruct (py_iter subscribers) as [todo|e].
          * rewrite write_each_run. cbn [snd s_page]. rewrite <- app_assoc.
            eexists. reflexivity.
          * cbn [snd s_page]. eexists. reflexivity.
        + unfold draw. cbn [snd s_page]. rewrite <- app_assoc. eexists. reflexivity.
      - cbn [snd s_page]. eexists. reflexivity. }
    assert (Hpage3 : forall tail,
               firstn 4 (written (page3 ++ tail)) =
                 [("Price: $" ++ sbp)%string; ("24h Change: " ++ sbc ++ "%")%string;
                  ("Price: $" ++ sep)%string; ("24h Change: " ++ sec ++ "%")%string]).
    { intros tail. unfold page3. cbn [app written]. reflexivity. }
    destruct (if subscribe_pressed i then _ else _) as [[[]|e] w4].
    + specialize (Hprefix w4).
      destruct (subscribers_panel (mkSession w4 page3)) as [[[]|e] s5];
        cbn [snd] in Hprefix.
      * destruct (send_pressed i).
        -- destruct (send_daily_updates (s_world s5)) as [[[]|e] w7]; cbn [snd s_page];
             apply Hpage; exact Hprefix.
        -- cbn [snd s_page]. apply Hpage; exact Hprefix.
      * cbn [snd]. rewrite <- (app_nil_r (s_page s5)). apply Hpage; exact Hprefix.
    + cbn [snd s_page]. rewrite <- (app_nil_r page3). apply Hpage3.
  - rewrite create_email_content_fields, F1, F2, F3, F4. cbn [and_then].
    rewrite (html_template_formats _ _ _ _ _ _ _ _ _ P1 P2 P3 P4).
    eexists. split; [reflexivity|].
    split; [|split; [|split]].
    + apply (contains_split _
               (nl ++ "    <h2>Daily Cryptocurrency Update</h2>"
                ++ nl ++ "    <p>Date: " ++ today w ++ "</p>"
                ++ nl ++ "    <h3>Bitcoin (BTC)</h3>" ++ nl ++ "    <p>")
               (nl ++ "    <p>24h Change: " ++ sbc ++ "%</p>"
                ++ nl ++ "    <h3>Ethereum (ETH)</h3>"
                ++ nl ++ "    <p>Current Price: $" ++ sep ++ "</p>"
                ++ nl ++ "    <p>24h Change: " ++ sec ++ "%</p>"
                ++ nl ++ "    ")).
      rewrite ?append_assoc. cbn [append nl]. rewrite ?append_assoc. reflexivity.
    + apply (contains_split _
               (nl ++ "    <h2>Daily Cryptocurrency Update</h2>"
                ++ nl ++ "    <p>Date: " ++ today w ++ "</p>"
                ++ nl ++ "    <h3>Bitcoin (BTC)</h3>"
                ++ nl ++ "    <p>Current Price: $" ++ sbp ++ "</p>"
                ++ nl ++ "    <p>")
               (nl ++ "    <h3>Ethereum (ETH)</h3>"
                ++ nl ++ "    <p>Current Price: $" ++ sep ++ "</p>"
                ++ nl ++ "    <p>24h Change: " ++ sec ++ "%</p>"
                ++ nl ++ "    ")).
      rewrite ?append_assoc. cbn [append nl]. rewrite ?append_assoc. reflexivity.
    + apply (contains_split _
               (nl ++ "    <h2>Daily Cryptocurrency Update</h2>"
                ++ nl ++ "    <p>Date: " ++ today w ++ "</p>"
                ++ nl ++ "    <h3>Bitcoin (BTC)</h3>"
                ++ nl ++ "    <p>Current Price: $" ++ sbp ++ "</p>"
                ++ nl ++ "    <p>24h Change: " ++ sbc ++ "%</p>"
                ++ nl ++ "    <h3>Ethereum (ETH)</h3>" ++ nl ++ "    <p>")
               (nl ++ "    <p>24h Change: " ++ sec ++ "%</p>"
                ++ nl ++ "    ")).
      rewrite ?append_assoc. cbn [append nl]. rewrite ?append_assoc. reflexivity.
    + apply (contains_split _
               (nl ++ "    <h2>Daily Cryptocurrency Update</h2>"
                ++ nl ++ "    <p>Date: " ++ today w ++ "</p>"
                ++ nl ++ "    <h3>Bitcoin (BTC)</h3>"
                ++ nl ++ "    <p>Current Price: $" ++ sbp ++ "</p>"
                ++ nl ++ "    <p>24h Change: " ++ sbc ++ "%</p>"
                ++ nl ++ "    <h3>Ethereum (ETH)</h3>"
                ++ nl ++ "    <p>Current Price: $" ++ sep ++ "</p>"
                ++ nl ++ "    <p>")
               (nl ++ "    ")).
      rewrite ?append_assoc. cbn [append nl]. rewrite ?append_assoc. reflexivity.
Qed.

Lemma main_rates_lines_witness :
  firstn 4 (written (s_page (snd (run_main just_looking world0)))) =
    ["Price: $65,000.00"; "24h Change: 1.00%";
     "Price: $3,200.00"; "24h Change: 2.00%"]%string.
Proof.
  apply (main_rates_lines just_looking world0
           (mkResponse 200 (Json snapshot_small)) snapshot_small
           (PyInt 65000) (PyInt 1) (PyInt 3200) (PyInt 2)
           "65,000.00" "1.00" "3,200.00" "2.00"); reflexivity.
Defined.

(* ------------------------------------------------------------------ *)
(** ** Failures in the middle of a run *)



(** X24.  A POST that fails with an exception ends the loop over the
    recipients wherever it happens.  If the recipients are [served],
    then [email], then [rest], every earlier POST is answered with a JSON
    body and the POST for [email] raises (a transport error, or an answer
    that is not JSON), then the loop raises that exception: the entries
    of [served] were written to and have their line printed, [email] was
    attempted and has no line, and nobody in [rest] is attempted. *)
Theorem send_loop_aborts_at :
  forall (subject html : string) (served : list pyval) (email : pyval)
         (rest : list pyval) (e : exn) (w : world),
    (forall n p, (n < posts w + List.length served)%nat ->
       exists r b, email_api w n p = Ret r /\ content r = Json b) ->
    post_failure (email_api w (posts w + List.length served)
                    (mkPayload sender email subject html)) = Some e ->
    let w' := snd (send_loop subject html (served ++ email :: rest) w) in
    fst (send_loop subject html (served ++ email :: rest) w) = Raise e /\
    recipients (trace w') = recipients (trace w) ++ served ++ [email] /\
    prints (trace w') =
      prints (trace w) ++ reports (email_api w) (posts w) subject html served /\
    posts w' = (posts w + List.length served + 1)%nat.
Proof.
  intros subject html served. induction served as [|x served IH];
    intros email rest e w Hjson Hfail w'; subst w'.
  - cbn [List.length app] in *. rewrite Nat.add_0_r in Hfail.
    assert (E0 : send_loop subject html (email :: rest) w =
                 (Raise e,
                  count_post
                    (log (EvPost email_url ("Bearer " ++ RESEND_API_KEY w)%string
                            (mkPayload sender email subject html)) w))).
    { cbn [send_loop]. unfold bind. rewrite send_email_step. cbv zeta.
      unfold post_failure in Hfail.
      destruct (email_api w (posts w) (mkPayload sender email subject html))
        as [r|e'].
      - unfold response_json.
        destruct (content r) as [b|raw|raw e'']; [discriminate| |];
          injection Hfail as <-; reflexivity.
      - injection Hfail as <-. reflexivity. }
    rewrite E0. cbn [fst snd count_post log trace posts reports].
    rewrite recipients_app, prints_app. cbn [recipients prints p_to].
    rewrite !app_nil_r. repeat split. lia.
  - destruct (Hjson (posts w) (mkPayload sender x subject html)
                ltac:(cbn [List.length]; lia)) as (r & body & Hr & Hbody).
    set (w2 := log (EvPrint (report x r body))
                 (count_post
                    (log (EvPost email_url ("Bearer " ++ RESEND_API_KEY w)%string
                            (mkPayload sender x subject html)) w))).
    assert (E0 : send_loop subject html ((x :: served) ++ email :: rest) w =
                 send_loop subject html (served ++ email :: rest) w2).
    { cbn [app send_loop]. unfold bind. rewrite send_email_step. cbv zeta.
      rewrite Hr. unfold response_json. rewrite Hbody. cbn [fst snd].
      unfold report in w2. subst w2.
      destruct (status_code r =? 200); reflexivity. }
    rewrite E0.
    destruct (IH email rest e w2) as (H1 & H2 & H3 & H4).
    { intros n p Hn. apply Hjson. subst w2. cbn [posts log count_post] in Hn.
      cbn [List.length]. lia. }
    { subst w2. cbn [posts log count_post email_api].
      replace (S (posts w) + List.length served)%nat
        with (posts w + List.length (x :: served))%nat by (cbn [List.length]; lia).
      exact Hfail. }
    rewrite H1, H2, H3, H4. subst w2.
    cbn [log count_post trace posts email_api reports]. rewrite Hr, Hbody.
    rewrite !recipients_app, !prints_app. cbn [recipients prints p_to].
    rewrite !app_nil_r, <- !app_assoc. cbn [app List.length].
    repeat split. lia.
Qed.

Lemma send_loop_aborts_at_witness :
  fst (send_loop digest_subject "<p>digest</p>"
         [PyStr "a@x.com"; PyStr "b@y.com"; PyStr "c@z.com"; PyStr "d@v.com"]
         down_after_two) = Raise ConnectionError /\
  recipients (trace (snd (send_loop digest_subject "<p>digest</p>"
         [PyStr "a@x.com"; PyStr "b@y.com"; PyStr "c@z.com"; PyStr "d@v.com"]
         down_after_two))) = [PyStr "a@x.com"; PyStr "b@y.com"; PyStr "c@z.com"].
Proof.
  destruct (send_loop_aborts_at digest_subject "<p>digest</p>"
              [PyStr "a@x.com"; PyStr "b@y.com"] (PyStr "c@z.com") [PyStr "d@v.com"]
              ConnectionError down_after_two) as (H1 & H2 & _).
  - intros n p Hn. exists accepted. eexists. cbn in Hn.
    destruct n as [|[|n]]; [split; reflexivity | split; reflexivity | lia].
  - reflexivity.
  - exact (conj H1 H2).
Defined.

(* ------------------------------------------------------------------ *)
(** ** The subscriber store over the reachable worlds *)

Lemma occurrences_not_in (email : string) (l : list pyval) :
  ~ In (PyStr email) l -> occurrences email l = 0%nat.
Proof.
  unfold occurrences. induction l as [|x l IH]; intros Hnin; [reflexivity|].
  cbn [filter]. destruct (str_eq email x) eqn:Hx.
  - exfalso. apply Hnin. left. destruct x; try discriminate.
    cbn in Hx. apply String.eqb_eq in Hx. subst. reflexivity.
  - apply IH. intros Hin. apply Hnin. right. exact Hin.
Qed.

Lemma NoDup_occurrences (email : string) (l : list pyval) :
  NoDup l -> (occurrences email l <= 1)%nat.
Proof.
  induction 1 as [|x l Hnin Hnd IH]; [cbn; lia|].
  unfold occurrences in *. cbn [filter]. destruct (str_eq email x) eqn:Hx; [|exact IH].
  destruct x; try discriminate. cbn in Hx. apply String.eqb_eq in Hx. subst s.
  cbn [List.length]. pose proof (occurrences_not_in email l Hnin) as H0.
  unfold occurrences in H0. lia.
Qed.

(** A run of the page script leaves the stored list as it is or, when
    "Subscribe" was pressed, as the press leaves it. *)
Lemma main_store (i : inputs) (w : world) (l : list pyval) :
  stored_list (subscribers_json w) = Some l ->
  stored_list (subscribers_json (s_world (snd (run_main i w)))) = Some l \/
  stored_list (subscribers_json (s_world (snd (run_main i w)))) =
    Some (subscribed (email_input i) l).
Proof.
  intros Hl. rewrite main_steps.
  destruct (rates_panel_runs w [WTitle "Cryptocurrency Email Updates"])
    as (g & evs & Hw2 & _).
  destruct (rates_panel _) as [[[]|e] s2]; cbn [snd] in Hw2.
  2: { left. cbn [snd]. rewrite Hw2. exact Hl. }
  cbv zeta.
  assert (Hl2 : stored_list (subscribers_json (s_world s2)) = Some l)
    by (rewrite Hw2; exact Hl).
  set (page3 := (_ ++ [WButton "Subscribe"])).
  assert (Htail : forall (w4 : world) (l4 : list pyval),
             stored_list (subscribers_json w4) = Some l4 ->
             stored_list
               (subscribers_json
                  (s_world
                     (snd
                        match subscribers_panel (mkSession w4 page3) with
                        | (Raise e, s5) => (Raise e, s5)
                        | (Ret _, s5) =>
                            if send_pressed i then
                              match send_daily_updates (s_world s5) with
                              | (Raise e, w7) =>
                                  (Raise e,
                                   mkSession w7 (s_page s5 ++ [WButton "Send Test Email"]))
                              | (Ret _, w7) =>
                                  (Ret tt,
                                   mkSession
                                     (log (EvSuccess [Lit "Test emails sent!"]) w7)
                                     (s_page s5 ++ [WButton "Send Test Email"]))
                              end
                            else
                              (Ret tt,
                               mkSession (s_world s5)
                                 (s_page s5 ++ [WButton "Send Test Email"]))
                        end))) = Some l4).
  { intros w4 l4 Hl4.
    rewrite (subscribers_panel_run (mkSession w4 page3) l4 Hl4). cbn [s_world s_page].
    destruct (send_pressed i); [|exact Hl4].
    destruct (send_daily_updates_runs (log (EvOpen subscribers_path "r") w4))
      as (evs7 & (_ & _ & _ & _ & Hf & _) & _).
    destruct (send_daily_updates _) as [[[]|e] w7]; cbn [snd] in Hf;
      cbn [snd s_world log subscribers_json]; rewrite Hf; exact Hl4. }
  destruct (subscribe_pressed i).
  - destruct (subscribe_stored (email_input i) (s_world s2) l Hl2) as (Hr & Hs).
    destruct (subscribe (email_input i) (s_world s2)) as [[[]|e] w4];
      cbn [fst snd] in Hr, Hs; [|discriminate].
    right. apply Htail. exact Hs.
  - left. apply Htail. exact Hl2.
Qed.

(** In every reachable world the subscriber file, if there is one, holds
    a JSON list without repeated entries. *)
Lemma reachable_store (w : world) :
  reachable w ->
  exists l, stored_list (subscribers_json w) = Some l /\ NoDup l.
Proof.
  induction 1 as [w Hnone | w email _ (l & Hl & Hnd) | w _ (l & Hl & Hnd)
                  | w i _ (l & Hl & Hnd)].
  - exists []. rewrite Hnone. split; [reflexivity | constructor].
  - exists (subscribed email l). split.
    + apply (subscribe_stored email w l Hl).
    + apply subscribed_NoDup. exact Hnd.
  - exists l. split; [|exact Hnd].
    destruct (send_daily_updates_runs w) as (evs & (_ & _ & _ & _ & Hf & _) & _).
    rewrite Hf. exact Hl.
  - destruct (main_store i w l Hl) as [H | H].
    + exists l. split; assumption.
    + exists (subscribed (email_input i) l). split; [exact H|].
      apply subscribed_NoDup. exact Hnd.
Qed.

(** C7.  For every valid address, in every world the program can reach,
    pressing "Subscribe" with that address twice in a row leaves the
    stored list with exactly one occurrence of it; both presses return,
    the second reports "already subscribed", only opens the file for
    reading, writes nothing and leaves the file as the first press left
    it. *)
Theorem subscribe_twice_reachable :
  forall (email : string) (w : world),
    valid_email email ->
    reachable w ->
    let w1 := snd (subscribe email w) in
    let w2 := snd (subscribe email w1) in
    fst (subscribe email w) = Ret tt /\
    fst (subscribe email w1) = Ret tt /\
    (exists l2, stored_list (subscribers_json w2) = Some l2 /\
                occurrences email l2 = 1%nat) /\
    trace w2 = trace w1 ++ [EvOpen subscribers_path "r";
                            EvInfo [Lit "You are already subscribed!"]] /\
    writes (trace w2) = writes (trace w1) /\
    subscribers_json w2 = subscribers_json w1.
Proof.
  intros email w Hv Hreach.
  destruct (reachable_store w Hreach) as (l & Hl & Hnd).
  destruct (subscribe_twice email w l Hv Hl)
    as (H1 & H2 & (l2 & Hl2 & _ & Hone) & H4 & H5 & H6).
  cbv zeta. split; [exact H1|]. split; [exact H2|]. split.
  - exists l2. split; [exact Hl2|]. apply Hone. apply NoDup_occurrences. exact Hnd.
  - split; [exact H4|]. split; [exact H5 | exact H6].
Qed.

Lemma subscribe_twice_reachable_witness :
  reachable (snd (subscribe "b@y.com" world0)) /\
  exists l2,
    stored_list (after_two_subscribes "a@x.com" (snd (subscribe "b@y.com" world0))) =
      Some l2 /\
    occurrences "a@x.com" l2 = 1%nat.
Proof.
  assert (Hreach : reachable (snd (subscribe "b@y.com" world0))).
  { apply reach_subscribe. apply reach_fresh. reflexivity. }
  split; [exact Hreach|].
  destruct (subscribe_twice_reachable "a@x.com" (snd (subscribe "b@y.com" world0))
              eq_refl Hreach)
    as (_ & _ & (l2 & Hl2 & H1) & _).
  exists l2. split; [exact Hl2 | exact H1].
Defined.
